(** * yt2mp3mp4: link resolution, quality gating and size cache of the GUI

    Shallow embedding of the methods of class [GUI] (version 2.1.0, the
    yt_dlp based iteration of the program): [wait_link],
    [reset_video_info_panel], [update_quality_options], [_strip_ansi],
    [yt_dlp_hook], [update_filesize_display], [_estimate_and_update_size],
    [_is_youtube_url] and [_refresh_quality_menu]; further down
    [change_widgets] and [convert_now], and [check_in_link] of the earlier
    versions.

    Python [str] values are modelled as [string], a sequence of code points
    below 256.  Integers are [Z].  The dictionary [size_cache] is a [gmap].
    Tk's [after] queue, the traces on the Tk variables and the background
    [Thread] objects are explicit components of the state. *)

From Stdlib Require Import ZArith Bool Ascii String Sorted.
From stdpp Require Import gmap strings list.
From stdpp Require Import pretty.

Local Open Scope string_scope.

(* stdpp blocks [simpl] on string concatenation; the proofs below want it. *)
#[local] Arguments String.append !_ _ / : simpl nomatch.

(** ** Python string helpers *)

Module PyStr.

Definition code (c : ascii) : nat := nat_of_ascii c.

Definition in_range (lo hi : nat) (c : ascii) : bool :=
  (lo <=? code c)%nat && (code c <=? hi)%nat.

(** [str.lower] on code points below 256: A-Z and the Latin-1 capitals
    (0xC0-0xDE without the multiplication sign 0xD7) move up by 32. *)
Definition lower_char (c : ascii) : ascii :=
  if in_range 65 90 c || (in_range 192 222 c && negb (code c =? 215)%nat)
  then ascii_of_nat (code c + 32) else c.

Fixpoint lower (s : string) : string :=
  match s with
  | EmptyString => EmptyString
  | String c r => String (lower_char c) (lower r)
  end.

(** Code points below 256 for which [str.isspace] holds. *)
Definition is_space (c : ascii) : bool :=
  in_range 9 13 c || in_range 28 32 c || (code c =? 133)%nat || (code c =? 160)%nat.

Fixpoint lstrip (s : string) : string :=
  match s with
  | EmptyString => EmptyString
  | String c r => if is_space c then lstrip r else s
  end.

Fixpoint rstrip (s : string) : string :=
  match s with
  | EmptyString => EmptyString
  | String c r =>
      match rstrip r with
      | EmptyString => if is_space c then EmptyString else String c EmptyString
      | r' => String c r'
      end
  end.

(** [s.strip()] *)
Definition strip (s : string) : string := rstrip (lstrip s).

(** [needle in s] needs [s.startswith(needle)] at some position. *)
Fixpoint startswith (needle s : string) : bool :=
  match needle, s with
  | EmptyString, _ => true
  | String a n', String b s' => Ascii.eqb a b && startswith n' s'
  | String _ _, EmptyString => false
  end.

Fixpoint contains (needle s : string) : bool :=
  startswith needle s ||
  match s with
  | EmptyString => false
  | String _ s' => contains needle s'
  end.

(** [not s] for a string. *)
Definition is_empty (s : string) : bool :=
  match s with EmptyString => true | _ => false end.

Fixpoint all_chars (p : ascii -> bool) (s : string) : bool :=
  match s with
  | EmptyString => true
  | String c r => p c && all_chars p r
  end.

(** Length of the longest prefix of [s] whose characters satisfy [p]. *)
Fixpoint span_len (p : ascii -> bool) (s : string) : nat :=
  match s with
  | EmptyString => 0
  | String c r => if p c then S (span_len p r) else 0
  end.

Fixpoint str_drop (n : nat) (s : string) : string :=
  match n, s with
  | 0, _ => s
  | S k, EmptyString => EmptyString
  | S k, String _ r => str_drop k r
  end.

End PyStr.

(** ** [_strip_ansi]

    The pattern is [\x1B\[[0-?]*[ -/]*[@-~]]: the escape character, an
    opening bracket, a run of parameter characters, a run of intermediate
    characters and one final character. *)

Definition esc : ascii := ascii_of_nat 27.
Definition lbracket : ascii := ascii_of_nat 91.

Definition is_param (c : ascii) : bool := PyStr.in_range 48 63 c.   (* [0-?] *)
Definition is_inter (c : ascii) : bool := PyStr.in_range 32 47 c.   (* [ -/] *)
Definition is_final (c : ascii) : bool := PyStr.in_range 64 126 c.  (* [@-~] *)

(** [ansi_re.match] at the start of [s]: the length of the match.  The two
    starred classes are greedy; they are disjoint from each other and from
    the final class, so giving characters back never helps (lemma
    [match_ansi_unique] below). *)
Definition match_ansi (s : string) : option nat :=
  match s with
  | String c1 (String c2 s2) =>
      if Ascii.eqb c1 esc && Ascii.eqb c2 lbracket then
        let n1 := PyStr.span_len is_param s2 in
        let s3 := PyStr.str_drop n1 s2 in
        let n2 := PyStr.span_len is_inter s3 in
        match PyStr.str_drop n2 s3 with
        | String f _ => if is_final f then Some (2 + n1 + n2 + 1)%nat else None
        | EmptyString => None
        end
      else None
  | _ => None
  end.

(** [ansi_re.sub('', s)]: scan from the left; where the pattern matches,
    drop the match and go on behind it ([skip] counts the characters of the
    current match still to drop); elsewhere keep the character. *)
Fixpoint sub_ansi (skip : nat) (s : string) : string :=
  match s with
  | EmptyString => EmptyString
  | String c r =>
      match skip with
      | S k => sub_ansi k r
      | O =>
          match match_ansi s with
          | Some n => sub_ansi (n - 1) r
          | None => String c (sub_ansi 0 r)
          end
      end
  end.

Definition _strip_ansi (s : string) : string := sub_ansi 0 s.

(** The language of the pattern, stated on its own. *)
Inductive ansi_seq : string -> Prop :=
  | ansi_seq_intro (ps ins : string) (f : ascii) :
      PyStr.all_chars is_param ps = true ->
      PyStr.all_chars is_inter ins = true ->
      is_final f = true ->
      ansi_seq (String esc (String lbracket (ps ++ ins ++ String f EmptyString))).

(** [out] is [s] without the sequences a scan from the left finds in it:
    where a sequence of the language starts, it is left out and the scan
    goes on behind it; any other character is kept. *)
Inductive stripped : string -> string -> Prop :=
  | stripped_end : stripped EmptyString EmptyString
  | stripped_seq (e rest out : string) :
      ansi_seq e -> stripped rest out -> stripped (e ++ rest) out
  | stripped_char (c : ascii) (rest out : string) :
      (forall e r : string, String c rest = e ++ r -> ~ ansi_seq e) ->
      stripped rest out -> stripped (String c rest) (String c out).

Definition esc_free (t : string) : bool :=
  PyStr.all_chars (fun c => negb (Ascii.eqb c esc)) t.

(** Text pieces [t] alternating with escape sequences [e], and the same
    text with the sequences left out. *)
Fixpoint interleave (segs : list (string * string)) (last : string) : string :=
  match segs with
  | [] => last
  | (t, e) :: r => t ++ e ++ interleave r last
  end.

Fixpoint plain_text (segs : list (string * string)) (last : string) : string :=
  match segs with
  | [] => last
  | (t, _) :: r => t ++ plain_text r last
  end.

Definition percent_example : string :=
  String esc "[0;94m42%" ++ String esc "[0m".


(** ** [_is_youtube_url] and the external collaborators

    [validators.url], [urllib.parse.urlparse], the thumbnail download of
    [get_thumbnail] and [os.path.basename] are not code of this program.
    [urlparse_netloc url] is [None] when [urlparse(url).netloc] raises. *)

Record Externals := {
  validators_url : string -> bool;
  urlparse_netloc : string -> option string;
  get_thumbnail : string -> option string;
  os_path_basename : string -> string
}.

Definition _is_youtube_url (ext : Externals) (url : string) : bool :=
  match urlparse_netloc ext url with
  | Some netloc =>
      let net := PyStr.lower netloc in
      PyStr.contains "youtube.com" net || PyStr.contains "youtu.be" net
  | None => false
  end.

(** [needle] occurs in [s] as a run of consecutive characters. *)
Definition substring_of (needle s : string) : Prop :=
  exists pre post : string, s = pre ++ needle ++ post.

(** ** The information dictionary of yt_dlp

    Only the entries the program reads.  [None] is an absent entry; for the
    numbers, [vcodec] and [thumbnail_url] it is also an entry whose value is
    Python's [None], which the program treats alike.  Bitrates, heights and
    sizes are integers, as in the specification's data model. *)

Record Format := {
  vcodec : option string;
  abr : option Z;
  height : option Z
}.

Record Part := {
  part_filesize : option Z;
  part_filesize_approx : option Z
}.

Record Info := {
  title : option string;
  thumbnail_url : option string;
  formats : option (list Format);
  requested_formats : option (list Part);
  filesize : option Z;
  filesize_approx : option Z
}.

(** [x or d] for an optional number: [None] and [0] are both falsy. *)
Definition or_else (x : option Z) (d : Z) : Z :=
  match x with
  | Some v => if (v =? 0)%Z then d else v
  | None => d
  end.

(** [max(l)] of a list with head [x] and tail [r]. *)
Definition py_max (x : Z) (r : list Z) : Z := fold_left Z.max r x.

(** [max(l) if l else 0] *)
Definition max_or_zero (l : list Z) : Z :=
  match l with
  | [] => 0%Z
  | x :: r => py_max x r
  end.

(** ** Quality gating *)

Inductive EntryState := normal | disabled.

Definition EntryState_eqb (a b : EntryState) : bool :=
  match a, b with
  | normal, normal | disabled, disabled => true
  | _, _ => false
  end.

Definition audio_opts : list (string * Z) :=
  [("Low", 96%Z); ("Medium", 192%Z); ("High", 320%Z)].

Definition video_opts : list (string * Z) :=
  [("480p", 480%Z); ("720p", 720%Z); ("1080p", 1080%Z); ("4K", 2160%Z)].

Definition is_audio_only (f : Format) : bool :=
  match vcodec f with
  | Some c => String.eqb c "none"
  | None => false
  end.

(** [[f.get('abr') or 0 for f in formats if f.get('vcodec')=='none']] *)
Definition abr_list (fs : list Format) : list Z :=
  map (fun f => or_else (abr f) 0) (List.filter (fun f => is_audio_only f) fs).

(** [[f.get('height') or 0 for f in formats if f.get('vcodec')!='none']] *)
Definition heights (fs : list Format) : list Z :=
  map (fun f => or_else (height f) 0) (List.filter (fun f => negb (is_audio_only f)) fs).

Definition max_abr (fs : list Format) : Z := max_or_zero (abr_list fs).
Definition max_h (fs : list Format) : Z := max_or_zero (heights fs).

Definition entry_state (target cap : Z) : EntryState :=
  if (target <=? cap)%Z then normal else disabled.

(** The entries [menu.add_command] creates in [_refresh_quality_menu], in
    the audio branch and in the video branch. *)
Definition gate_menu (mp3 : bool) (fs : list Format) : list (string * EntryState) :=
  if mp3 then
    map (fun '(label, kbps) => (label, entry_state kbps (max_abr fs))) audio_opts
  else
    map (fun '(label, h) => (label, entry_state h (max_h fs))) video_opts.

(** [cur not in entries or states[entries.index(cur)]=='disabled'] *)
Fixpoint needs_fallback (cur : string) (menu : list (string * EntryState)) : bool :=
  match menu with
  | [] => true
  | (lbl, st) :: r =>
      if String.eqb cur lbl then EntryState_eqb st disabled else needs_fallback cur r
  end.

(** The label the loop over [zip(entries, states)] stops at. *)
Fixpoint first_normal (menu : list (string * EntryState)) : option string :=
  match menu with
  | [] => None
  | (lbl, st) :: r => if EntryState_eqb st normal then Some lbl else first_normal r
  end.

(** ** State of the program *)

(** Text of [filesize_label].  [SizeEstimated total] stands for
    [f"Estimated size: {total/(1024*1024):.2f} MB"]; the float formatting is
    kept symbolic. *)
Inductive SizeText :=
  | SizeBlank                      (* "" *)
  | SizeEstimating                 (* "Estimating size…" *)
  | SizeEstimated (total : Z)
  | SizeUnknown.                   (* "Size unknown" *)

(** The callables handed to [window.after]. *)
Inductive Callback :=
  | CbLinkStatus (text : string)       (* lambda: self.link_status.config(text=...) *)
  | CbReset                            (* self.reset_video_info_panel *)
  | CbUpd (title : string) (thumb : option string)   (* upd of wait_link *)
  | CbRefreshQuality                   (* self._refresh_quality_menu *)
  | CbUpdateFilesize                   (* self.update_filesize_display *)
  | CbFilesizeLabel (text : SizeText)  (* lambda: self.filesize_label.config(text=...) *)
  | CbDownloadStatus (text : string).  (* lambda: self.download_status.config(text=text) *)

(** What a background thread does to the shared object, one statement each. *)
Inductive Op :=
  | OpAfter (ms : nat) (cb : Callback)   (* self.window.after(ms, cb) *)
  | OpSetInfo (info : Info)              (* self.current_info = info *)
  | OpClearCache                         (* self.size_cache.clear() *)
  | OpCachePut (key : string * bool * string) (total : Z).  (* self.size_cache[key] = total *)

(** [Thread(target=..., args=...).start()]: a thread is first a call that
    has not produced its statements yet, then the statements left to run. *)
Inductive Thread :=
  | TWaitLink (url : string)
  | TEstimate (url : string) (is_mp3 : bool) (quality : string)
  | TRunning (ops : list Op).

Record GUI := mkGUI {
  in_link_entry : string;
  is_mp3 : bool;
  quality_var : string;
  current_info : option Info;
  size_cache : gmap (string * bool * string) Z;
  photo : option string;
  link_status : string;
  video_title : string;
  thumbnail : option string;
  filesize_label : SizeText;
  download_status : string;
  quality_label : string;
  quality_menu : list (string * EntryState);
  after_queue : list Callback;
  timers : list (nat * Callback);
  threads : list Thread
}.

(** Assignment to one attribute; the others keep their value. *)
Definition set_in_link_entry (v : string) (g : GUI) : GUI :=
  mkGUI v (is_mp3 g) (quality_var g) (current_info g) (size_cache g) (photo g)
    (link_status g) (video_title g) (thumbnail g) (filesize_label g)
    (download_status g) (quality_label g) (quality_menu g) (after_queue g)
    (timers g) (threads g).
Definition set_is_mp3 (v : bool) (g : GUI) : GUI :=
  mkGUI (in_link_entry g) v (quality_var g) (current_info g) (size_cache g)
    (photo g) (link_status g) (video_title g) (thumbnail g) (filesize_label g)
    (download_status g) (quality_label g) (quality_menu g) (after_queue g)
    (timers g) (threads g).
Definition set_quality_var (v : string) (g : GUI) : GUI :=
  mkGUI (in_link_entry g) (is_mp3 g) v (current_info g) (size_cache g)
    (photo g) (link_status g) (video_title g) (thumbnail g) (filesize_label g)
    (download_status g) (quality_label g) (quality_menu g) (after_queue g)
    (timers g) (threads g).
Definition set_current_info (v : option Info) (g : GUI) : GUI :=
  mkGUI (in_link_entry g) (is_mp3 g) (quality_var g) v (size_cache g)
    (photo g) (link_status g) (video_title g) (thumbnail g) (filesize_label g)
    (download_status g) (quality_label g) (quality_menu g) (after_queue g)
    (timers g) (threads g).
Definition set_size_cache (v : gmap (string * bool * string) Z) (g : GUI) : GUI :=
  mkGUI (in_link_entry g) (is_mp3 g) (quality_var g) (current_info g) v
    (photo g) (link_status g) (video_title g) (thumbnail g) (filesize_label g)
    (download_status g) (quality_label g) (quality_menu g) (after_queue g)
    (timers g) (threads g).
Definition set_photo (v : option string) (g : GUI) : GUI :=
  mkGUI (in_link_entry g) (is_mp3 g) (quality_var g) (current_info g)
    (size_cache g) v (link_status g) (video_title g) (thumbnail g)
    (filesize_label g) (download_status g) (quality_label g) (quality_menu g)
    (after_queue g) (timers g) (threads g).
Definition set_link_status (v : string) (g : GUI) : GUI :=
  mkGUI (in_link_entry g) (is_mp3 g) (quality_var g) (current_info g)
    (size_cache g) (photo g) v (video_title g) (thumbnail g)
    (filesize_label g) (download_status g) (quality_label g) (quality_menu g)
    (after_queue g) (timers g) (threads g).
Definition set_video_title (v : string) (g : GUI) : GUI :=
  mkGUI (in_link_entry g) (is_mp3 g) (quality_var g) (current_info g)
    (size_cache g) (photo g) (link_status g) v (thumbnail g)
    (filesize_label g) (download_status g) (quality_label g) (quality_menu g)
    (after_queue g) (timers g) (threads g).
Definition set_thumbnail (v : option string) (g : GUI) : GUI :=
  mkGUI (in_link_entry g) (is_mp3 g) (quality_var g) (current_info g)
    (size_cache g) (photo g) (link_status g) (video_title g) v
    (filesize_label g) (download_status g) (quality_label g) (quality_menu g)
    (after_queue g) (timers g) (threads g).
Definition set_filesize_label (v : SizeText) (g : GUI) : GUI :=
  mkGUI (in_link_entry g) (is_mp3 g) (quality_var g) (current_info g)
    (size_cache g) (photo g) (link_status g) (video_title g) (thumbnail g) v
    (download_status g) (quality_label g) (quality_menu g) (after_queue g)
    (timers g) (threads g).
Definition set_download_status (v : string) (g : GUI) : GUI :=
  mkGUI (in_link_entry g) (is_mp3 g) (quality_var g) (current_info g)
    (size_cache g) (photo g) (link_status g) (video_title g) (thumbnail g)
    (filesize_label g) v (quality_label g) (quality_menu g) (after_queue g)
    (timers g) (threads g).
Definition set_quality_label (v : string) (g : GUI) : GUI :=
  mkGUI (in_link_entry g) (is_mp3 g) (quality_var g) (current_info g)
    (size_cache g) (photo g) (link_status g) (video_title g) (thumbnail g)
    (filesize_label g) (download_status g) v (quality_menu g) (after_queue g)
    (timers g) (threads g).
Definition set_quality_menu (v : list (string * EntryState)) (g : GUI) : GUI :=
  mkGUI (in_link_entry g) (is_mp3 g) (quality_var g) (current_info g)
    (size_cache g) (photo g) (link_status g) (video_title g) (thumbnail g)
    (filesize_label g) (download_status g) (quality_label g) v (after_queue g)
    (timers g) (threads g).
Definition set_after_queue (v : list Callback) (g : GUI) : GUI :=
  mkGUI (in_link_entry g) (is_mp3 g) (quality_var g) (current_info g)
    (size_cache g) (photo g) (link_status g) (video_title g) (thumbnail g)
    (filesize_label g) (download_status g) (quality_label g) (quality_menu g)
    v (timers g) (threads g).
Definition set_timers (v : list (nat * Callback)) (g : GUI) : GUI :=
  mkGUI (in_link_entry g) (is_mp3 g) (quality_var g) (current_info g)
    (size_cache g) (photo g) (link_status g) (video_title g) (thumbnail g)
    (filesize_label g) (download_status g) (quality_label g) (quality_menu g)
    (after_queue g) v (threads g).
Definition set_threads (v : list Thread) (g : GUI) : GUI :=
  mkGUI (in_link_entry g) (is_mp3 g) (quality_var g) (current_info g)
    (size_cache g) (photo g) (link_status g) (video_title g) (thumbnail g)
    (filesize_label g) (download_status g) (quality_label g) (quality_menu g)
    (after_queue g) (timers g) v.

(** ** Methods that run on the Tk thread *)

Definition spawn (t : Thread) (g : GUI) : GUI :=
  set_threads (threads g ++ [t])%list g.

(** [reset_video_info_panel] *)
Definition reset_video_info_panel (g : GUI) : GUI :=
  set_filesize_label SizeBlank
    (set_current_info None
      (set_thumbnail None
        (set_photo None
          (set_video_title "" g)))).

(** Truth value of an optional string. *)
Definition truthy (o : option string) : bool :=
  match o with
  | Some s => negb (PyStr.is_empty s)
  | None => false
  end.

(** The closure [upd] of [wait_link]. *)
Definition upd (ext : Externals) (title : string) (thumb : option string)
    (g : GUI) : GUI :=
  let g1 := set_thumbnail None (set_video_title title g) in
  match thumb with
  | Some u =>
      if truthy thumb then
        let g2 := set_photo (get_thumbnail ext u) g1 in
        match photo g2 with
        | Some img => set_thumbnail (Some img) g2
        | None => g2
        end
      else g1
  | None => g1
  end.

(** [update_filesize_display] *)
Definition update_filesize_display (g : GUI) : GUI :=
  let url := PyStr.strip (in_link_entry g) in
  let to_mp3 := is_mp3 g in
  let quality := quality_var g in
  let key := (url, to_mp3, quality) in
  if PyStr.is_empty url then set_filesize_label SizeBlank g
  else
    match size_cache g !! key with
    | Some total => set_filesize_label (SizeEstimated total) g
    | None =>
        spawn (TEstimate url to_mp3 quality)
          (set_filesize_label SizeEstimating g)
    end.

(** [not info] for an information dictionary: the dictionary is empty.  A
    record none of whose entries is there stands for the empty dictionary. *)
Definition info_is_empty (info : Info) : bool :=
  match title info, thumbnail_url info, formats info,
        requested_formats info, filesize info, filesize_approx info with
  | None, None, None, None, None, None => true
  | _, _, _, _, _, _ => false
  end.

#[local] Arguments info_is_empty : simpl never.

(** The body of [_refresh_quality_menu].  [write_quality] is what
    [self.quality_var.set] does where the method runs: a write trace on
    [quality_var] calls the method again, and Tcl disables the traces of a
    variable while one of them runs.  [if not self.current_info: return]
    leaves for [None] and for the empty dictionary alike. *)
Definition refresh_body (write_quality : string -> GUI -> GUI) (g : GUI) : GUI :=
  match current_info g with
  | None => g
  | Some info =>
      if info_is_empty info then g
      else
        let g1 := set_quality_menu [] g in
        match formats info with
        | None => g1   (* KeyError 'formats': the callback stops here *)
        | Some fs =>
            let g2 := set_quality_menu (gate_menu (is_mp3 g1) fs) g1 in
            let cur := quality_var g2 in
            let g3 :=
              if needs_fallback cur (quality_menu g2) then
                match first_normal (quality_menu g2) with
                | Some lbl => write_quality lbl g2
                | None => g2
                end
              else g2 in
            update_filesize_display g3
        end
  end.

(** The method as the write trace of [quality_var] runs it. *)
Definition refresh_in_trace : GUI -> GUI := refresh_body set_quality_var.

(** [self.quality_var.set(v)] outside that trace: the write, then the trace. *)
Definition quality_var_set (v : string) (g : GUI) : GUI :=
  refresh_in_trace (set_quality_var v g).

(** [_refresh_quality_menu] called from [after] or from
    [update_quality_options]. *)
Definition _refresh_quality_menu : GUI -> GUI := refresh_body quality_var_set.

(** [opts[len(opts)//2][0]] *)
Definition default_label (opts : list (string * Z)) : string :=
  match nth_error opts (length opts / 2) with
  | Some (label, _) => label
  | None => ""
  end.

(** [update_quality_options] *)
Definition update_quality_options (g : GUI) : GUI :=
  let opts := if is_mp3 g then audio_opts else video_opts in
  let g1 :=
    set_quality_label (if is_mp3 g then "Audio Quality" else "Video Quality") g in
  let g2 := set_quality_menu (map (fun '(label, _) => (label, normal)) opts) g1 in
  let g3 := quality_var_set (default_label opts) g2 in
  _refresh_quality_menu g3.

Definition run_callback (ext : Externals) (cb : Callback) (g : GUI) : GUI :=
  match cb with
  | CbLinkStatus text => set_link_status text g
  | CbReset => reset_video_info_panel g
  | CbUpd t th => upd ext t th g
  | CbRefreshQuality => _refresh_quality_menu g
  | CbUpdateFilesize => update_filesize_display g
  | CbFilesizeLabel text => set_filesize_label text g
  | CbDownloadStatus text => set_download_status text g
  end.

(** ** Background threads *)

(** [wait_link(url)]; [fetched] is what [ydl.extract_info] gives when the
    thread gets that far, [None] for an exception. *)
Definition wait_link (ext : Externals) (url : string) (fetched : option Info)
    : list Op :=
  if PyStr.is_empty url then
    [OpAfter 0 (CbLinkStatus "Waiting for link..."); OpAfter 0 CbReset]
  else
    OpAfter 0 (CbLinkStatus "Verifying link...") ::
    if negb (validators_url ext url) then
      [OpAfter 0 (CbLinkStatus "Please enter a valid link.");
       OpAfter 3000 (CbLinkStatus "Waiting for link...");
       OpAfter 0 CbReset]
    else if negb (_is_youtube_url ext url) then
      [OpAfter 0 (CbLinkStatus "Please enter a valid YouTube link.");
       OpAfter 3000 (CbLinkStatus "Waiting for link...");
       OpAfter 0 CbReset]
    else
      OpAfter 0 (CbLinkStatus "Link correct...") ::
      OpAfter 1000 (CbLinkStatus "Fetching link...") ::
      match fetched with
      | None => [OpAfter 0 (CbLinkStatus "Error fetching link.")]
      | Some info =>
          [OpSetInfo info;
           OpAfter 0 (CbUpd (default "" (title info)) (thumbnail_url info));
           OpSetInfo info;
           OpClearCache;
           OpAfter 0 CbRefreshQuality;
           OpAfter 0 CbUpdateFilesize;
           OpAfter 0 (CbLinkStatus "Link fetched!")]
      end.

(** [f.get('filesize') or f.get('filesize_approx') or 0] *)
Definition part_size (f : Part) : Z :=
  or_else (part_filesize f) (or_else (part_filesize_approx f) 0).

Definition estimate_total (info : Info) : Z :=
  match requested_formats info with
  | Some parts => fold_left (fun total f => (total + part_size f)%Z) parts 0%Z
  | None => or_else (filesize info) (or_else (filesize_approx info) 0)
  end.

(** [_estimate_and_update_size(url, is_mp3, quality)]; [fetched] as in
    [wait_link].  The format specifier only goes into the query. *)
Definition _estimate_and_update_size (url : string) (mp3 : bool)
    (quality : string) (fetched : option Info) : list Op :=
  match fetched with
  | None => [OpAfter 0 (CbFilesizeLabel SizeUnknown)]
  | Some info =>
      let total := estimate_total info in
      let key := (url, mp3, quality) in
      [OpCachePut key total;
       OpAfter 0 (CbFilesizeLabel (SizeEstimated total))]
  end.

Definition run_op (o : Op) (g : GUI) : GUI :=
  match o with
  | OpAfter 0 cb => set_after_queue (after_queue g ++ [cb])%list g
  | OpAfter ms cb => set_timers (timers g ++ [(ms, cb)])%list g
  | OpSetInfo info => set_current_info (Some info) g
  | OpClearCache => set_size_cache ∅ g
  | OpCachePut key total => set_size_cache (<[key := total]> (size_cache g)) g
  end.

(** ** Progress hook *)

Record Progress := {
  status : option string;
  _percent_str : option string;
  filename : option string
}.

(** [yt_dlp_hook(d)], called on the download thread: the text it hands to
    [after], if any. *)
Definition yt_dlp_hook (ext : Externals) (d : Progress) : list Op :=
  let raw_pct := PyStr.strip (default "" (_percent_str d)) in
  let clean_pct := _strip_ansi raw_pct in
  let fname := os_path_basename ext (default "" (filename d)) in
  match status d with
  | Some st =>
      if String.eqb st "downloading" then
        [OpAfter 0 (CbDownloadStatus ("Downloading " ++ fname ++ " " ++ clean_pct))]
      else if String.eqb st "finished" then
        [OpAfter 0 (CbDownloadStatus ("Finished " ++ fname))]
      else []
  | None => []
  end.

(** ** Interleaving of the Tk thread and the background threads *)

Inductive Event :=
  | EvEdit (text : string)     (* the link entry is written: trace, new thread *)
  | EvToggle (mp3 : bool)      (* a radio button writes is_mp3: trace *)
  | EvPick (label : string)    (* the command of an enabled menu entry *)
  | EvIdle                     (* Tk runs the oldest callback of after(0, ...) *)
  | EvTimer (k : nat)          (* Tk runs the k-th delayed callback *)
  | EvStart (k : nat) (fetched : option Info)   (* thread k starts; its query will give [fetched] *)
  | EvOp (k : nat)             (* thread k runs its next statement *)
  | EvHook (d : Progress).     (* the download thread calls yt_dlp_hook *)

Definition run_ops (ops : list Op) (g : GUI) : GUI :=
  fold_left (fun g' o => run_op o g') ops g.

Definition thread_ops (ext : Externals) (t : Thread) (fetched : option Info)
    : list Op :=
  match t with
  | TWaitLink url => wait_link ext url fetched
  | TEstimate url mp3 quality => _estimate_and_update_size url mp3 quality fetched
  | TRunning ops => ops
  end.

Definition entry_enabled (label : string) (menu : list (string * EntryState)) : bool :=
  existsb (fun '(l, st) => String.eqb l label && EntryState_eqb st normal) menu.

Definition exec (ext : Externals) (e : Event) (g : GUI) : GUI :=
  match e with
  | EvEdit text => spawn (TWaitLink text) (set_in_link_entry text g)
  | EvToggle mp3 => update_quality_options (set_is_mp3 mp3 g)
  | EvPick label =>
      if entry_enabled label (quality_menu g) then quality_var_set label g else g
  | EvIdle =>
      match after_queue g with
      | cb :: q => run_callback ext cb (set_after_queue q g)
      | [] => g
      end
  | EvTimer k =>
      match timers g !! k with
      | Some (_, cb) => run_callback ext cb (set_timers (delete k (timers g)) g)
      | None => g
      end
  | EvStart k fetched =>
      match threads g !! k with
      | Some (TRunning _) | None => g
      | Some t =>
          set_threads (<[k := TRunning (thread_ops ext t fetched)]> (threads g)) g
      end
  | EvOp k =>
      match threads g !! k with
      | Some (TRunning (o :: r)) =>
          run_op o (set_threads (<[k := TRunning r]> (threads g)) g)
      | _ => g
      end
  | EvHook d => run_ops (yt_dlp_hook ext d) g
  end.

Definition run (ext : Externals) (evs : list Event) (g : GUI) : GUI :=
  fold_left (fun g' e => exec ext e g') evs g.

(** Thread [k] starts and runs all its statements with nothing in between. *)
Definition complete (ext : Externals) (k : nat) (fetched : option Info)
    (g : GUI) : GUI :=
  match threads g !! k with
  | Some t =>
      run ext (EvStart k fetched ::
               repeat (EvOp k) (length (thread_ops ext t fetched))) g
  | None => g
  end.

(** Tk runs every callback that is waiting in the queue. *)
Definition drain (ext : Externals) (g : GUI) : GUI :=
  run ext (repeat EvIdle (length (after_queue g))) g.

(** The callbacks of a queue, oldest first. *)
Definition run_callbacks (ext : Externals) (q : list Callback) (g : GUI) : GUI :=
  fold_left (fun g' cb => run_callback ext cb g') q g.

(** What the canvas shows once [upd] has run for [info]. *)
Definition shown_thumbnail (ext : Externals) (info : Info) : option string :=
  match thumbnail_url info with
  | Some u => if truthy (Some u) then get_thumbnail ext u else None
  | None => None
  end.

(** The state [__init__] leaves: no metadata, empty cache, MP3 selected, the
    audio menu built by [update_quality_options] with 'Medium' selected. *)
Definition init : GUI :=
  {| in_link_entry := ""; is_mp3 := true; quality_var := "Medium";
     current_info := None; size_cache := ∅; photo := None;
     link_status := "Waiting for link..."; video_title := "";
     thumbnail := None; filesize_label := SizeBlank; download_status := "";
     quality_label := "Audio Quality";
     quality_menu := [("Low", normal); ("Medium", normal); ("High", normal)];
     after_queue := []; timers := []; threads := [] |}.

(** A concrete stand-in for the collaborators, for evaluating the model on
    addresses of the shape scheme://host/path: the network location is the
    text between the first double slash and the next slash, question mark
    or hash; an address is well formed when it has "://"; a thumbnail
    download returns the address it was given; a file name is its own base
    name. *)
Fixpoint after_slashes (s : string) : string :=
  match s with
  | EmptyString => EmptyString
  | String c r =>
      match r with
      | String c' r' =>
          if Ascii.eqb c "/" && Ascii.eqb c' "/" then r' else after_slashes r
      | EmptyString => EmptyString
      end
  end.

Fixpoint host_part (s : string) : string :=
  match s with
  | EmptyString => EmptyString
  | String c r =>
      if Ascii.eqb c "/" || Ascii.eqb c "?" || Ascii.eqb c "#"
      then EmptyString else String c (host_part r)
  end.

Definition ext0 : Externals :=
  {| validators_url := fun url => PyStr.contains "://" url;
     urlparse_netloc := fun url => Some (host_part (after_slashes url));
     get_thumbnail := fun u => Some u;
     os_path_basename := fun p => p |}.

(** The option list and the capability the refresh compares it with. *)
Definition opts_of (mp3 : bool) : list (string * Z) :=
  if mp3 then audio_opts else video_opts.

Definition cap_of (mp3 : bool) (fs : list Format) : Z :=
  if mp3 then max_abr fs else max_h fs.

(** The supported set: the options whose target is within the capability,
    in the order of the option list. *)
Definition supported (mp3 : bool) (fs : list Format) : list string :=
  map fst (List.filter (fun o => (snd o <=? cap_of mp3 fs)%Z) (opts_of mp3)).

(** Labels of the entries a menu leaves enabled, in menu order. *)
Definition enabled_labels (menu : list (string * EntryState)) : list string :=
  map fst (List.filter (fun e => EntryState_eqb (snd e) normal) menu).


(** ** The download: [change_widgets] and [convert_now]

    [os.path.join] and [os.path.realpath] are not code of this program. *)

Record OsPath := {
  os_path_join : string -> string -> string;
  os_path_realpath : string -> string
}.

(** The attributes only the download touches.  [widget_states] holds the
    state of the eight widgets of [to_change], in that order: in_link,
    in_directory, mp3_butt, mp4_butt, quality_menu, filename_entry, browse,
    convert. *)
Record Panel := mkPanel {
  in_directory : string;
  filename_entry : string;
  status_text : string;
  pb_running : bool;
  widget_states : list EntryState
}.

Definition set_status_text (v : string) (p : Panel) : Panel :=
  mkPanel (in_directory p) (filename_entry p) v (pb_running p) (widget_states p).
Definition set_pb_running (v : bool) (p : Panel) : Panel :=
  mkPanel (in_directory p) (filename_entry p) (status_text p) v (widget_states p).
Definition set_widget_states (v : list EntryState) (p : Panel) : Panel :=
  mkPanel (in_directory p) (filename_entry p) (status_text p) (pb_running p) v.

(** The options handed to [yt_dlp.YoutubeDL] for the download.  The entries
    that are the same in every call ('recode-video', 'progress_hooks', the
    postprocessor's key and codec) are left out. *)
Record YdlOpts := {
  opt_format : string;
  opt_outtmpl : string;
  opt_preferredquality : option string;     (* audio branch only *)
  opt_merge_output_format : option string;  (* video branch only *)
  opt_noplaylist : bool
}.

(** What the download asks of the outside, in program order. *)
Inductive Effect :=
  | FxShowError (title msg : string)          (* messagebox.showerror *)
  | FxDownload (url : string) (opts : YdlOpts)  (* ydl.download([url]) *)
  | FxOpenBrowser (path : string)             (* webbrowser.open *)
  | FxStartResetThread.                       (* Thread(target=self.reset_dl_status).start() *)

(** [change_widgets(mode)].  For a mode other than 'on' and 'off' the
    message box is shown and [state] is never bound, so the loop raises at
    its first widget: the result is [None] and no widget has changed. *)
Definition change_widgets (mode : string) (p : Panel)
    : list Effect * option Panel :=
  if String.eqb mode "on" then
    ([], Some (set_widget_states (map (fun _ => normal) (widget_states p)) p))
  else if String.eqb mode "off" then
    ([], Some (set_widget_states (map (fun _ => disabled) (widget_states p)) p))
  else
    ([FxShowError "Widget Error" "change_widgets() only takes 'on' or 'off'"],
     None).

(** [kbps_map.get(quality, '192')] of [convert_now] *)
Definition kbps_map (quality : string) : string :=
  if String.eqb quality "Low" then "96"
  else if String.eqb quality "Medium" then "192"
  else if String.eqb quality "High" then "320"
  else "192".

(** [height_map.get(quality, 720)] of [convert_now] *)
Definition height_map (quality : string) : Z :=
  if String.eqb quality "480p" then 480%Z
  else if String.eqb quality "720p" then 720%Z
  else if String.eqb quality "1080p" then 1080%Z
  else if String.eqb quality "4K" then 2160%Z
  else 720%Z.

(** [height_map.get(quality, 720)] of [_estimate_and_update_size], from
    that method's own dictionary. *)
Definition estimate_height_map (quality : string) : Z :=
  if String.eqb quality "480p" then 480%Z
  else if String.eqb quality "720p" then 720%Z
  else if String.eqb quality "1080p" then 1080%Z
  else if String.eqb quality "4K" then 2160%Z
  else 720%Z.

(** The format specifier and the 'noplaylist' entry of the query of
    [_estimate_and_update_size]. *)
Definition estimate_query (mp3 : bool) (quality : string) : string * bool :=
  let fmt :=
    if mp3 then "bestaudio/best"
    else
      let max_h := estimate_height_map quality in
      "bestvideo[height<=" ++ pretty max_h ++ "]+bestaudio/best" in
  (fmt, true).

(** Truth value of [self.current_info] and [.get('title', '')]. *)
Definition title_or_empty (ci : option Info) : string :=
  match ci with
  | Some info => default "" (title info)
  | None => ""
  end.

(** The base file name of [convert_now].  An empty dictionary is falsy in
    [not base_name and self.current_info] and has no title: either way the
    name stays empty at that point, so the test below need not single it
    out. *)
Definition base_name (g : GUI) (p : Panel) : string :=
  let b := PyStr.strip (filename_entry p) in
  let b :=
    if PyStr.is_empty b &&
       match current_info g with Some _ => true | None => false end
    then title_or_empty (current_info g) else b in
  if PyStr.is_empty b then "download" else b.

(** [ydl_opts] of [convert_now]. *)
Definition convert_opts (os : OsPath) (g : GUI) (p : Panel) : YdlOpts :=
  let url := PyStr.strip (in_link_entry g) in
  let directory := PyStr.strip (in_directory p) in
  let quality := quality_var g in
  let noplay := negb (PyStr.contains "list=" url) in
  let outtmpl := os_path_join os directory (base_name g p) ++ ".%(ext)s" in
  if is_mp3 g then
    {| opt_format := "bestaudio/best";
       opt_outtmpl := outtmpl;
       opt_preferredquality := Some (kbps_map quality);
       opt_merge_output_format := None;
       opt_noplaylist := noplay |}
  else
    let max_h := height_map quality in
    {| opt_format := "bestvideo[height<=" ++ pretty max_h ++ "]+bestaudio/best";
       opt_outtmpl := outtmpl;
       opt_preferredquality := None;
       opt_merge_output_format := Some "mp4";
       opt_noplaylist := noplay |}.

(** [convert_now]; [download_error] is [Some (str(e))] when [ydl.download]
    raises [e].  The method runs on its own thread and configures the
    widgets directly.  The result is the panel it leaves and what it asked
    of the outside. *)
Definition convert_now (os : OsPath) (g : GUI) (p : Panel)
    (download_error : option string) : Panel * list Effect :=
  let p1 := set_status_text "Converting..." (set_pb_running true p) in
  match change_widgets "off" p1 with
  | (fx, None) => (p1, fx)
  | (fx_off, Some p2) =>
      let url := PyStr.strip (in_link_entry g) in
      let directory := PyStr.strip (in_directory p2) in
      let fx_dl :=
        FxDownload url (convert_opts os g p2) ::
        match download_error with
        | Some msg => [FxShowError "Download Error" msg]
        | None => []
        end in
      match change_widgets "on" p2 with
      | (fx, None) => (p2, fx_off ++ fx_dl ++ fx)%list
      | (fx_on, Some p3) =>
          let p4 := set_status_text "Done!" (set_pb_running false p3) in
          (p4,
           (fx_off ++ fx_dl ++ fx_on ++
              [FxOpenBrowser (os_path_realpath os directory);
               FxStartResetThread])%list)
      end
  end.

(** ** Notions used to state the further properties *)

(** The sum of what the parts report. *)
Definition sum_sizes (parts : list Part) : Z :=
  fold_right Z.add 0%Z (map part_size parts).

Definition labels_of (mp3 : bool) : list string := map fst (opts_of mp3).

(** The selected quality and the menu belong to the selected output kind. *)
Definition kind_consistent (g : GUI) : Prop :=
  In (quality_var g) (labels_of (is_mp3 g)) /\
  (quality_menu g = [] \/ map fst (quality_menu g) = labels_of (is_mp3 g)).

(** A size query, and a cache key, for a present link and a quality of its
    own output kind. *)
Definition key_ok (key : string * bool * string) : Prop :=
  let '(url, mp3, quality) := key in
  PyStr.is_empty url = false /\ In quality (labels_of mp3).

Definition op_ok (o : Op) : Prop :=
  match o with
  | OpCachePut key _ => key_ok key
  | _ => True
  end.

Definition thread_ok (t : Thread) : Prop :=
  match t with
  | TWaitLink _ => True
  | TEstimate url mp3 quality => key_ok (url, mp3, quality)
  | TRunning ops => Forall op_ok ops
  end.

(** What every state reachable from [init] satisfies. *)
Definition well_formed (g : GUI) : Prop :=
  kind_consistent g /\
  Forall thread_ok (threads g) /\
  (forall key total, size_cache g !! key = Some total -> key_ok key).

(** [check_in_link] of the pytube versions of the program: the value it
    gives [self.is_vid] for the text of the link entry. *)
Definition check_in_link (link : string) : bool :=
  if PyStr.contains "list" link then false else true.
(** ** Concrete inputs used to evaluate the model *)

Definition fmt_audio (kbps : Z) : Format :=
  {| vcodec := Some "none"; abr := Some kbps; height := None |}.

Definition fmt_video (codec : string) (h : Z) : Format :=
  {| vcodec := Some codec; abr := None; height := Some h |}.

Definition info_of (t : string) (fs : list Format) : Info :=
  {| title := Some t; thumbnail_url := None; formats := Some fs;
     requested_formats := None; filesize := None; filesize_approx := None |}.

(** Best audio 150 kbps, best video 1080 px. *)
Definition fs150 : list Format :=
  [fmt_audio 48; fmt_audio 150; fmt_video "avc1" 1080; fmt_video "vp9" 720].

Definition info150 : Info := info_of "clip" fs150.

(** Best audio 200 kbps, no video. *)
Definition fs200 : list Format := [fmt_audio 200; fmt_audio 64].

Definition info200 : Info := info_of "song" fs200.

(** Best audio 50 kbps. *)
Definition fs50 : list Format := [fmt_audio 50].

Definition info50 : Info := info_of "voice" fs50.

(** 'High' selected, metadata of [info200] just stored. *)
Definition g_high200 : GUI :=
  set_current_info (Some info200) (set_quality_var "High" init).

Definition g_high50 : GUI :=
  set_current_info (Some info50) (set_quality_var "High" init).

Definition example_segs : list (string * string) :=
  [("", String esc "[0;94m"); ("42%", String esc "[0m")].

Definition progress_example : Progress :=
  {| status := Some "downloading";
     _percent_str := Some percent_example;
     filename := Some "clip.mp3" |}.

Definition evil_url : string := "https://www.youtube.com.evil.example/watch?v=abc".

Definition urlA : string := "https://youtu.be/aaa".
Definition urlB : string := "https://youtu.be/bbb".

(** Metadata with every quality available. *)
Definition fs_full : list Format := [fmt_audio 320; fmt_video "avc1" 2160].
Definition infoA : Info := info_of "A" fs_full.
Definition infoB : Info := info_of "B" fs_full.

(** The answer of a size query: one file of [total] bytes. *)
Definition est_info (total : Z) : Info :=
  {| title := None; thumbnail_url := None; formats := None;
     requested_formats := None; filesize := Some total;
     filesize_approx := None |}.

(** The link is set to A, then to B before A's fetch has returned: thread 0
    fetches A, thread 1 fetches B. *)
Definition race_start : GUI := run ext0 [EvEdit urlA; EvEdit urlB] init.

(** B's fetch returns first and is displayed, then A's. *)
Definition race_B_done : GUI := drain ext0 (complete ext0 1 (Some infoB) race_start).
Definition race_A_done : GUI := drain ext0 (complete ext0 0 (Some infoA) race_B_done).

(** The link is set to A and its fetch succeeds; the queued refresh and the
    queued size update both ask for the size of (A, MP3, 'Medium'). *)
Definition sel_fetched : GUI :=
  drain ext0 (complete ext0 0 (Some infoA) (exec ext0 (EvEdit urlA) init)).

(** The user picks 'Low' while the 'Medium' estimates are still running. *)
Definition sel_low : GUI := exec ext0 (EvPick "Low") sel_fetched.

(** The first 'Medium' estimate returns 5 MiB and its callback runs. *)
Definition sel_stale : GUI :=
  drain ext0 (complete ext0 1 (Some (est_info 5242880)) sel_low).

(** From [sel_fetched]: the first 'Medium' estimate returns and is cached. *)
Definition cached : GUI :=
  drain ext0 (complete ext0 1 (Some (est_info 5242880)) sel_fetched).

(** Then the link is replaced by B: thread 3 fetches B. *)
Definition refetch : GUI := exec ext0 (EvEdit urlB) cached.

(** Thread 3 gets B's metadata and runs its statements up to and including
    [self.window.after(0, upd)]; Tk then runs the three callbacks queued so
    far, the last of which is [upd]. *)
Definition refetch_mid : GUI :=
  run ext0 [EvStart 3 (Some infoB); EvOp 3; EvOp 3; EvOp 3; EvOp 3; EvOp 3;
            EvIdle; EvIdle; EvIdle] refetch.

(** From [refetch]: B's fetch raises instead. *)
Definition refetch_failed : GUI := drain ext0 (complete ext0 3 None refetch).


(** From [cached] (A displayed, its size cached): the link entry is emptied;
    thread 3 handles the empty text. *)
Definition cleared : GUI := exec ext0 (EvEdit "") cached.

(** The answer of a size query for a video: two parts, 6 MiB of video with
    an exact size and 1 MiB of audio with an approximate one; the size
    given for the whole is not the sum. *)
Definition two_parts : Info :=
  {| title := None; thumbnail_url := None; formats := None;
     requested_formats :=
       Some [ {| part_filesize := Some 6291456%Z; part_filesize_approx := None |};
              {| part_filesize := None; part_filesize_approx := Some 1048576%Z |} ];
     filesize := Some 1%Z; filesize_approx := None |}.

Definition two_parts_swapped : Info :=
  {| title := None; thumbnail_url := None; formats := None;
     requested_formats :=
       Some [ {| part_filesize := None; part_filesize_approx := Some 1048576%Z |};
              {| part_filesize := Some 6291456%Z; part_filesize_approx := None |} ];
     filesize := None; filesize_approx := None |}.

(** Best video 720 px, no audio-only format. *)
Definition fs720 : list Format := [fmt_video "avc1" 720; fmt_video "avc1" 360].

Definition info720 : Info := info_of "short" fs720.

(** An operating system whose paths are joined with a slash. *)
Definition os0 : OsPath :=
  {| os_path_join := fun d b => d ++ "/" ++ b;
     os_path_realpath := fun d => d |}.

(** The download panel as [__init__] leaves it, with a directory typed in. *)
Definition panel0 : Panel :=
  {| in_directory := "out"; filename_entry := ""; status_text := "Idle";
     pb_running := false;
     widget_states := [normal; normal; normal; normal; normal; normal; normal; normal] |}.

Definition playlist_url : string := "https://www.youtube.com/watch?v=abc&list=PL1".


(** Formats that carry both a bitrate and a height: an audio-only one of
    150 kbps tagged with a height of 2160, and a video of 1080 px with an
    audio track of 256 kbps. *)
Definition fs_mixed : list Format :=
  [ {| vcodec := Some "none"; abr := Some 150%Z; height := Some 2160%Z |};
    {| vcodec := Some "avc1"; abr := Some 256%Z; height := Some 1080%Z |} ].

Definition info_mixed : Info := info_of "mixed" fs_mixed.

(** A percent string in which the deletion of one sequence brings the
    pieces of another together: ESC ESC[0m [0m 42%. *)
Definition percent_nested : string := String esc (String esc "[0m[0m42%").

Definition progress_nested : Progress :=
  {| status := Some "downloading";
     _percent_str := Some percent_nested;
     filename := Some "clip.mp3" |}.

(** A percent string behind an operating system command, ESC ] 0;t BEL,
    which sets the title of the terminal. *)
Definition percent_osc : string :=
  String esc ("]0;t" ++ String "007"%char "42%").

Definition progress_osc : Progress :=
  {| status := Some "downloading";
     _percent_str := Some percent_osc;
     filename := Some "clip.mp3" |}.
(** * Properties *)

(** ** Frame lemmas: what the Tk-thread methods leave alone *)

Ltac unfold_ufd :=
  unfold update_filesize_display, spawn;
  repeat match goal with
         | |- context [if ?b then _ else _] => destruct b
         | |- context [match ?x with Some _ => _ | None => _ end] => destruct x
         end; try reflexivity.

Lemma ufd_quality_menu g : quality_menu (update_filesize_display g) = quality_menu g.
Proof. unfold_ufd. Qed.

Lemma ufd_quality_var g : quality_var (update_filesize_display g) = quality_var g.
Proof. unfold_ufd. Qed.

Lemma ufd_current_info g : current_info (update_filesize_display g) = current_info g.
Proof. unfold_ufd. Qed.

Lemma ufd_is_mp3 g : is_mp3 (update_filesize_display g) = is_mp3 g.
Proof. unfold_ufd. Qed.

Lemma ufd_video_title g : video_title (update_filesize_display g) = video_title g.
Proof. unfold_ufd. Qed.

Lemma ufd_after_queue g : after_queue (update_filesize_display g) = after_queue g.
Proof. unfold_ufd. Qed.

Lemma ufd_size_cache g : size_cache (update_filesize_display g) = size_cache g.
Proof. unfold_ufd. Qed.

Lemma ufd_in_link_entry g : in_link_entry (update_filesize_display g) = in_link_entry g.
Proof. unfold_ufd. Qed.

Lemma ufd_link_status g : link_status (update_filesize_display g) = link_status g.
Proof. unfold_ufd. Qed.

Lemma formats_not_empty (info : Info) (fs : list Format) :
  formats info = Some fs -> info_is_empty info = false.
Proof.
  unfold info_is_empty. intros ->.
  destruct (title info), (thumbnail_url info); reflexivity.
Qed.

Lemma refresh_body_frame {A : Type} (p : GUI -> A) (w : string -> GUI -> GUI) :
  (forall v g, p (set_quality_menu v g) = p g) ->
  (forall l g, p (w l g) = p g) ->
  (forall g, p (update_filesize_display g) = p g) ->
  forall g, p (refresh_body w g) = p g.
Proof.
  intros Hm Hw Hu g. unfold refresh_body.
  destruct (current_info g) as [info|]; [|reflexivity].
  destruct (info_is_empty info); [reflexivity|].
  destruct (formats info) as [fs|]; [|apply Hm].
  rewrite Hu.
  destruct (needs_fallback _ _); [destruct (first_normal _)|];
    rewrite ?Hw, !Hm; reflexivity.
Qed.

(** Both forms of the refresh keep every attribute other than the menu, the
    selected quality, the size label and the thread pool. *)
Lemma refresh_frame {A : Type} (p : GUI -> A) :
  (forall v g, p (set_quality_menu v g) = p g) ->
  (forall v g, p (set_quality_var v g) = p g) ->
  (forall g, p (update_filesize_display g) = p g) ->
  forall g, p (refresh_in_trace g) = p g /\ p (_refresh_quality_menu g) = p g.
Proof.
  intros Hm Hq Hu g.
  assert (Ht : forall g', p (refresh_in_trace g') = p g')
    by (intros g'; apply refresh_body_frame; auto).
  split; [apply Ht|].
  apply refresh_body_frame; auto.
  intros l g'. unfold quality_var_set. rewrite Ht. apply Hq.
Qed.

Lemma refresh_current_info g :
  current_info (_refresh_quality_menu g) = current_info g.
Proof. apply (refresh_frame current_info); auto using ufd_current_info. Qed.

Lemma refresh_video_title g :
  video_title (_refresh_quality_menu g) = video_title g.
Proof. apply (refresh_frame video_title); auto using ufd_video_title. Qed.

Lemma refresh_after_queue g :
  after_queue (_refresh_quality_menu g) = after_queue g.
Proof. apply (refresh_frame after_queue); auto using ufd_after_queue. Qed.

Lemma refresh_size_cache g :
  size_cache (_refresh_quality_menu g) = size_cache g.
Proof. apply (refresh_frame size_cache); auto using ufd_size_cache. Qed.

Lemma refresh_is_mp3 g : is_mp3 (_refresh_quality_menu g) = is_mp3 g.
Proof. apply (refresh_frame is_mp3); auto using ufd_is_mp3. Qed.

Lemma refresh_link_status g :
  link_status (_refresh_quality_menu g) = link_status g.
Proof. apply (refresh_frame link_status); auto using ufd_link_status. Qed.

Lemma refresh_in_link_entry g :
  in_link_entry (_refresh_quality_menu g) = in_link_entry g.
Proof. apply (refresh_frame in_link_entry); auto using ufd_in_link_entry. Qed.

(** ** The gated menu *)

Lemma first_normal_selected mp3 fs lbl :
  first_normal (gate_menu mp3 fs) = Some lbl ->
  needs_fallback lbl (gate_menu mp3 fs) = false.
Proof.
  unfold gate_menu, entry_state. destruct mp3; simpl;
    repeat match goal with
           | |- context [(?a <=? ?b)%Z] => destruct (a <=? b)%Z; simpl
           end;
    intros H; inversion H; reflexivity.
Qed.

(** With metadata present the refresh installs the gated menu, also when
    the fall-back writes the variable and so runs the method a second
    time. *)
Lemma refresh_menu g info fs :
  current_info g = Some info -> formats info = Some fs ->
  quality_menu (_refresh_quality_menu g) = gate_menu (is_mp3 g) fs.
Proof.
  intros Hi Hf. unfold _refresh_quality_menu, refresh_body at 1.
  rewrite Hi, (formats_not_empty _ _ Hf), Hf, ufd_quality_menu. simpl.
  destruct (needs_fallback _ _); [|reflexivity].
  destruct (first_normal _); [|reflexivity].
  unfold quality_var_set, refresh_in_trace, refresh_body. simpl.
  rewrite Hi, (formats_not_empty _ _ Hf), Hf, ufd_quality_menu. simpl.
  destruct (needs_fallback _ _); [destruct (first_normal _)|]; reflexivity.
Qed.

Lemma refresh_quality_var g info fs :
  current_info g = Some info -> formats info = Some fs ->
  quality_var (_refresh_quality_menu g) =
    if needs_fallback (quality_var g) (gate_menu (is_mp3 g) fs)
    then default (quality_var g) (first_normal (gate_menu (is_mp3 g) fs))
    else quality_var g.
Proof.
  intros Hi Hf. unfold _refresh_quality_menu, refresh_body at 1.
  rewrite Hi, (formats_not_empty _ _ Hf), Hf, ufd_quality_var. simpl.
  destruct (needs_fallback _ _); [|reflexivity].
  destruct (first_normal _) as [lbl|] eqn:Hn; [|reflexivity].
  unfold quality_var_set, refresh_in_trace, refresh_body. simpl.
  rewrite Hi, (formats_not_empty _ _ Hf), Hf, ufd_quality_var. simpl.
  rewrite (first_normal_selected _ _ _ Hn). reflexivity.
Qed.

Lemma py_max_spec (r : list Z) : forall x : Z,
  In (py_max x r) (x :: r) /\ Forall (fun a => (a <= py_max x r)%Z) (x :: r).
Proof.
  unfold py_max. induction r as [|y r IH]; intros x; simpl.
  - split; [left; reflexivity | repeat constructor; lia].
  - destruct (IH (Z.max x y)) as [Hin Hall]. inversion Hall as [|? ? Hm Hr]; subst.
    split.
    + destruct Hin as [Hin|Hin]; [|right; right; exact Hin].
      rewrite <- Hin.
      destruct (Z.max_spec x y) as [[_ ->]|[_ ->]]; [right; left | left]; reflexivity.
    + constructor; [lia|]. constructor; [lia | exact Hr].
Qed.

Lemma max_or_zero_spec (l : list Z) :
  (l = [] -> max_or_zero l = 0%Z) /\
  (l <> [] -> In (max_or_zero l) l /\ Forall (fun a => (a <= max_or_zero l)%Z) l).
Proof.
  split.
  - intros ->. reflexivity.
  - destruct l as [|x r]; [congruence|]. intros _. apply py_max_spec.
Qed.

Lemma audio_entry_enabled (m : Z) (label : string) (kbps : Z) :
  In (label, kbps) audio_opts ->
  In (label, normal) (map (fun '(l, k) => (l, entry_state k m)) audio_opts) <->
  (kbps <= m)%Z.
Proof.
  unfold audio_opts, entry_state. simpl.
  intros [H|[H|[H|[]]]]; inversion H; subst; clear H;
    destruct (Z.leb_spec 96 m), (Z.leb_spec 192 m), (Z.leb_spec 320 m);
    split; intros; try lia; intuition (try discriminate; try congruence).
Qed.

Lemma video_entry_enabled (m : Z) (label : string) (h : Z) :
  In (label, h) video_opts ->
  In (label, normal) (map (fun '(l, k) => (l, entry_state k m)) video_opts) <->
  (h <= m)%Z.
Proof.
  unfold video_opts, entry_state. simpl.
  intros [H|[H|[H|[H|[]]]]]; inversion H; subst; clear H;
    destruct (Z.leb_spec 480 m), (Z.leb_spec 720 m), (Z.leb_spec 1080 m),
      (Z.leb_spec 2160 m);
    split; intros; try lia; intuition (try discriminate; try congruence).
Qed.

Lemma is_audio_only_spec (f : Format) :
  is_audio_only f = true <-> vcodec f = Some "none".
Proof.
  unfold is_audio_only. destruct (vcodec f) as [c|].
  - rewrite String.eqb_eq. split; [intros ->; reflexivity | intros [= ->]; reflexivity].
  - split; discriminate.
Qed.

Lemma is_audio_only_false (f : Format) :
  negb (is_audio_only f) = true <-> vcodec f <> Some "none".
Proof.
  rewrite negb_true_iff, <- not_true_iff_false, is_audio_only_spec. reflexivity.
Qed.

(** [max(l) if l else 0] for [l = [val f for f in fs if p f]]: an upper
    bound of the selected values, one of them when there is any, 0 when
    there is none. *)
Lemma max_over_spec (p : Format -> bool) (val : Format -> Z) (fs : list Format) :
  let m := max_or_zero (map val (List.filter p fs)) in
  (forall f, In f fs -> p f = true -> (val f <= m)%Z) /\
  ((exists f, In f fs /\ p f = true) ->
   exists f, In f fs /\ p f = true /\ m = val f) /\
  ((forall f, In f fs -> p f <> true) -> m = 0%Z).
Proof.
  intros m. subst m.
  destruct (max_or_zero_spec (map val (List.filter p fs))) as [H0 H1].
  assert (Hin : forall f, In f fs -> p f = true ->
                          In (val f) (map val (List.filter p fs))).
  { intros f Hf Hp. apply in_map, filter_In. split; assumption. }
  assert (Hne : forall f, In f fs -> p f = true ->
                          map val (List.filter p fs) <> []).
  { intros f Hf Hp He. specialize (Hin f Hf Hp). rewrite He in Hin. exact Hin. }
  split; [|split].
  - intros f Hf Hp. destruct (H1 (Hne f Hf Hp)) as [_ Hall].
    rewrite List.Forall_forall in Hall. apply Hall, Hin; assumption.
  - intros (f & Hf & Hp). destruct (H1 (Hne f Hf Hp)) as [Hmax _].
    apply in_map_iff in Hmax as (f0 & Hv & Hf0).
    apply filter_In in Hf0 as [Hf0 Hp0].
    exists f0. split; [exact Hf0|]. split; [exact Hp0|]. symmetry. exact Hv.
  - intros Hnone. apply H0.
    destruct (List.filter p fs) as [|f r] eqn:He; [reflexivity|].
    assert (Hf : In f (List.filter p fs)) by (rewrite He; left; reflexivity).
    apply filter_In in Hf as [Hf Hp]. destruct (Hnone f Hf Hp).
Qed.

(** C3.  With metadata whose format list is [fs], the refresh computes
    [max_abr] as the largest bitrate ([abr], 0 when absent) among the
    formats of [fs] whose [vcodec] is 'none', and [max_h] as the largest
    height among the formats of [fs] whose [vcodec] is anything else: the
    cap bounds every such format, is the value of one of them when there is
    one, and is 0 when there is none.  The refresh rebuilds the menu with
    the fixed labels and enables an entry exactly when its target is at
    most that cap.  A cap of 150 kbps leaves only Low enabled, a cap of
    1080 px leaves 480p, 720p and 1080p. *)
Theorem gating_follows_capability (g : GUI) (info : Info) (fs : list Format) :
  current_info g = Some info ->
  formats info = Some fs ->
  let menu := quality_menu (_refresh_quality_menu g) in
  (forall f, In f fs -> vcodec f = Some "none" ->
     (or_else (abr f) 0 <= max_abr fs)%Z) /\
  ((exists f, In f fs /\ vcodec f = Some "none") ->
   exists f, In f fs /\ vcodec f = Some "none" /\
             max_abr fs = or_else (abr f) 0) /\
  ((forall f, In f fs -> vcodec f <> Some "none") -> max_abr fs = 0%Z) /\
  (forall f, In f fs -> vcodec f <> Some "none" ->
     (or_else (height f) 0 <= max_h fs)%Z) /\
  ((exists f, In f fs /\ vcodec f <> Some "none") ->
   exists f, In f fs /\ vcodec f <> Some "none" /\
             max_h fs = or_else (height f) 0) /\
  ((forall f, In f fs -> vcodec f = Some "none") -> max_h fs = 0%Z) /\
  (abr_list fs = [] -> max_abr fs = 0%Z) /\
  (abr_list fs <> [] ->
     In (max_abr fs) (abr_list fs) /\
     Forall (fun a => (a <= max_abr fs)%Z) (abr_list fs)) /\
  (heights fs = [] -> max_h fs = 0%Z) /\
  (heights fs <> [] ->
     In (max_h fs) (heights fs) /\
     Forall (fun a => (a <= max_h fs)%Z) (heights fs)) /\
  (is_mp3 g = true ->
     map fst menu = map fst audio_opts /\
     forall label kbps, In (label, kbps) audio_opts ->
       (In (label, normal) menu <-> (kbps <= max_abr fs)%Z)) /\
  (is_mp3 g = false ->
     map fst menu = map fst video_opts /\
     forall label h, In (label, h) video_opts ->
       (In (label, normal) menu <-> (h <= max_h fs)%Z)) /\
  (is_mp3 g = true -> max_abr fs = 150%Z -> enabled_labels menu = ["Low"]) /\
  (is_mp3 g = false -> max_h fs = 1080%Z ->
     enabled_labels menu = ["480p"; "720p"; "1080p"]).
Proof.
  intros Hi Hf menu. subst menu. rewrite (refresh_menu g info fs Hi Hf).
  pose proof (max_or_zero_spec (abr_list fs)) as [Ha0 Ha1].
  pose proof (max_or_zero_spec (heights fs)) as [Hh0 Hh1].
  destruct (max_over_spec (fun f => is_audio_only f)
              (fun f => or_else (abr f) 0) fs) as (Ma1 & Ma2 & Ma3).
  destruct (max_over_spec (fun f => negb (is_audio_only f))
              (fun f => or_else (height f) 0) fs) as (Mh1 & Mh2 & Mh3).
  cbv beta in Ma1, Ma2, Ma3, Mh1, Mh2, Mh3.
  fold (abr_list fs) in Ma1, Ma2, Ma3. fold (max_abr fs) in Ma1, Ma2, Ma3.
  fold (heights fs) in Mh1, Mh2, Mh3. fold (max_h fs) in Mh1, Mh2, Mh3.
  split.
  { intros f Hin Hv. apply Ma1; [exact Hin | apply is_audio_only_spec, Hv]. }
  split.
  { intros (f & Hin & Hv).
    destruct Ma2 as (f0 & Hin0 & Hp0 & Hm0).
    - exists f. split; [exact Hin | apply is_audio_only_spec, Hv].
    - exists f0. split; [exact Hin0|].
      split; [apply is_audio_only_spec, Hp0 | exact Hm0]. }
  split.
  { intros Hnone. apply Ma3. intros f Hin Hp.
    apply (Hnone f Hin), is_audio_only_spec, Hp. }
  split.
  { intros f Hin Hv. apply Mh1; [exact Hin | apply is_audio_only_false, Hv]. }
  split.
  { intros (f & Hin & Hv).
    destruct Mh2 as (f0 & Hin0 & Hp0 & Hm0).
    - exists f. split; [exact Hin | apply is_audio_only_false, Hv].
    - exists f0. split; [exact Hin0|].
      split; [apply is_audio_only_false, Hp0 | exact Hm0]. }
  split.
  { intros Hall. apply Mh3. intros f Hin Hp.
    apply is_audio_only_false in Hp. apply Hp, Hall, Hin. }
  split; [exact Ha0|]. split; [exact Ha1|].
  split; [exact Hh0|]. split; [exact Hh1|].
  split; [|split; [|split]].
  - intros ->. split; [reflexivity|].
    intros label kbps Hin. apply audio_entry_enabled, Hin.
  - intros ->. split; [reflexivity|].
    intros label h Hin. apply video_entry_enabled, Hin.
  - intros -> Hcap. unfold gate_menu. rewrite Hcap. reflexivity.
  - intros -> Hcap. unfold gate_menu. rewrite Hcap. reflexivity.
Qed.

Lemma gating_follows_capability_witness :
  enabled_labels
    (quality_menu (_refresh_quality_menu (set_current_info (Some info150) init)))
    = ["Low"] /\
  enabled_labels
    (quality_menu
       (_refresh_quality_menu
          (set_is_mp3 false (set_current_info (Some info150) init))))
    = ["480p"; "720p"; "1080p"] /\
  enabled_labels
    (quality_menu (_refresh_quality_menu (set_current_info (Some info_mixed) init)))
    = ["Low"] /\
  enabled_labels
    (quality_menu
       (_refresh_quality_menu
          (set_is_mp3 false (set_current_info (Some info_mixed) init))))
    = ["480p"; "720p"; "1080p"].
Proof.
  split; [|split; [|split]].
  - destruct (gating_follows_capability
                (set_current_info (Some info150) init) info150 fs150
                eq_refl eq_refl)
      as (_ & _ & _ & _ & _ & _ & _ & _ & _ & _ & _ & _ & H & _).
    apply H; reflexivity.
  - destruct (gating_follows_capability
                (set_is_mp3 false (set_current_info (Some info150) init))
                info150 fs150 eq_refl eq_refl)
      as (_ & _ & _ & _ & _ & _ & _ & _ & _ & _ & _ & _ & _ & H).
    apply H; reflexivity.
  - destruct (gating_follows_capability
                (set_current_info (Some info_mixed) init) info_mixed fs_mixed
                eq_refl eq_refl)
      as (_ & _ & _ & _ & _ & _ & _ & _ & _ & _ & _ & _ & H & _).
    apply H; reflexivity.
  - destruct (gating_follows_capability
                (set_is_mp3 false (set_current_info (Some info_mixed) init))
                info_mixed fs_mixed eq_refl eq_refl)
      as (_ & _ & _ & _ & _ & _ & _ & _ & _ & _ & _ & _ & _ & H).
    apply H; reflexivity.
Defined.

(** ** Fall-back of the selected quality *)

Lemma enabled_labels_gate mp3 fs :
  enabled_labels (gate_menu mp3 fs) = supported mp3 fs.
Proof.
  unfold enabled_labels, supported, gate_menu, opts_of, cap_of, entry_state.
  destruct mp3; simpl;
    repeat match goal with
           | |- context [(?a <=? ?b)%Z] => destruct (a <=? b)%Z; simpl
           end; reflexivity.
Qed.

Lemma first_normal_gate mp3 fs :
  first_normal (gate_menu mp3 fs) = head (supported mp3 fs).
Proof.
  unfold supported, gate_menu, opts_of, cap_of, entry_state.
  destruct mp3; simpl;
    repeat match goal with
           | |- context [(?a <=? ?b)%Z] => destruct (a <=? b)%Z; simpl
           end; reflexivity.
Qed.

Lemma needs_fallback_gate mp3 fs cur :
  needs_fallback cur (gate_menu mp3 fs) = true <-> ~ In cur (supported mp3 fs).
Proof.
  unfold supported, gate_menu, opts_of, cap_of, entry_state.
  destruct mp3; simpl;
    repeat match goal with
           | |- context [String.eqb cur ?l] => destruct (String.eqb_spec cur l); subst
           end;
    repeat match goal with
           | |- context [(?a <=? ?b)%Z] => destruct (a <=? b)%Z; simpl
           end;
    intuition (try discriminate; try congruence).
Qed.

Lemma opts_ascending mp3 :
  StronglySorted Z.lt (map snd (opts_of mp3)).
Proof. destruct mp3; simpl; repeat constructor. Qed.

(** C6.  The option lists are in ascending order of their target.  When a
    refresh with metadata finds the selected quality outside the supported
    set, the selection becomes the first supported option; when no option is
    supported the selection is left as it was and the rebuilt menu, which
    still lists every option, has no enabled entry. *)
Theorem fallback_first_supported (g : GUI) (info : Info) (fs : list Format) :
  current_info g = Some info ->
  formats info = Some fs ->
  ~ In (quality_var g) (supported (is_mp3 g) fs) ->
  StronglySorted Z.lt (map snd (opts_of (is_mp3 g))) /\
  quality_var (_refresh_quality_menu g)
    = hd (quality_var g) (supported (is_mp3 g) fs) /\
  (supported (is_mp3 g) fs = [] ->
     enabled_labels (quality_menu (_refresh_quality_menu g)) = [] /\
     map fst (quality_menu (_refresh_quality_menu g))
       = map fst (opts_of (is_mp3 g))).
Proof.
  intros Hi Hf Hout. split; [apply opts_ascending|]. split.
  - rewrite (refresh_quality_var g info fs Hi Hf).
    apply needs_fallback_gate in Hout. rewrite Hout, first_normal_gate.
    destruct (supported _ _); reflexivity.
  - intros Hnone. rewrite (refresh_menu g info fs Hi Hf), enabled_labels_gate.
    split; [exact Hnone|]. unfold gate_menu, opts_of.
    destruct (is_mp3 g); reflexivity.
Qed.

Lemma fallback_first_supported_witness :
  quality_var (_refresh_quality_menu g_high200) = "Low" /\
  quality_var (_refresh_quality_menu g_high50) = "High" /\
  enabled_labels (quality_menu (_refresh_quality_menu g_high50)) = [].
Proof.
  assert (H200 : ~ In (quality_var g_high200) (supported (is_mp3 g_high200) fs200))
    by (simpl; intuition discriminate).
  assert (H50 : ~ In (quality_var g_high50) (supported (is_mp3 g_high50) fs50))
    by (simpl; intuition discriminate).
  destruct (fallback_first_supported g_high200 info200 fs200 eq_refl eq_refl H200)
    as (_ & Hq & _).
  destruct (fallback_first_supported g_high50 info50 fs50 eq_refl eq_refl H50)
    as (_ & Hq' & Hnone).
  split; [exact Hq|]. split; [exact Hq'|]. apply Hnone. reflexivity.
Defined.

(** C7 as stated fails: with 'High' selected and a best audio bitrate of
    200 kbps the highest option still supported is 'Medium', and the refresh
    selects 'Low'. *)
Lemma fallback_is_not_highest_supported :
  quality_var g_high200 = "High" /\
  max_abr fs200 = 200%Z /\
  supported true fs200 = ["Low"; "Medium"] /\
  quality_var (_refresh_quality_menu g_high200) = "Low" /\
  quality_var (_refresh_quality_menu g_high200) <> "Medium".
Proof. repeat split; try reflexivity. vm_compute. discriminate. Qed.

(** C7, amended.  With 'High' selected in audio mode and a best audio
    bitrate below 320 kbps, the refresh selects 'Low', the lowest option,
    as soon as 96 kbps is available; when no option is supported it leaves
    'High' selected. *)
Theorem fallback_from_high (g : GUI) (info : Info) (fs : list Format) :
  current_info g = Some info ->
  formats info = Some fs ->
  is_mp3 g = true ->
  quality_var g = "High" ->
  (max_abr fs < 320)%Z ->
  quality_var (_refresh_quality_menu g)
    = if (96 <=? max_abr fs)%Z then "Low" else "High".
Proof.
  intros Hi Hf Hm Hq Hlt.
  rewrite (refresh_quality_var g info fs Hi Hf), Hm, Hq.
  unfold gate_menu, entry_state. simpl.
  destruct (Z.leb_spec 320 (max_abr fs)); [lia|].
  destruct (Z.leb_spec 96 (max_abr fs)); [reflexivity|].
  destruct (Z.leb_spec 192 (max_abr fs)); [lia | reflexivity].
Qed.

Lemma fallback_from_high_witness :
  quality_var (_refresh_quality_menu g_high200) = "Low".
Proof.
  apply (fallback_from_high g_high200 info200 fs200);
    [reflexivity | reflexivity | reflexivity | reflexivity | vm_compute; reflexivity].
Defined.

(** ** Escape sequences *)

Lemma str_app_assoc (a b c : string) : (a ++ b) ++ c = a ++ b ++ c.
Proof. induction a as [|x a IH]; simpl; [reflexivity | f_equal; exact IH]. Qed.

Lemma str_app_nil_r (a : string) : a ++ "" = a.
Proof. induction a as [|x a IH]; simpl; [reflexivity | f_equal; exact IH]. Qed.

Lemma str_length_app (a b : string) :
  String.length (a ++ b) = (String.length a + String.length b)%nat.
Proof. induction a as [|x a IH]; simpl; [reflexivity | f_equal; exact IH]. Qed.

(** The three character classes of the pattern are pairwise disjoint. *)
Lemma classes_disjoint (c : ascii) :
  (is_inter c = true -> is_param c = false) /\
  (is_final c = true -> is_param c = false /\ is_inter c = false).
Proof.
  unfold is_param, is_inter, is_final, PyStr.in_range.
  repeat match goal with
         | |- context [(?a <=? ?b)%nat] => destruct (Nat.leb_spec a b)
         end; simpl; repeat split; intros; try reflexivity; try discriminate; lia.
Qed.

Lemma span_len_run (p : ascii -> bool) (run rest : string) :
  PyStr.all_chars p run = true ->
  match rest with String c _ => p c = false | EmptyString => True end ->
  PyStr.span_len p (run ++ rest) = String.length run /\
  PyStr.str_drop (String.length run) (run ++ rest) = rest.
Proof.
  intros Hrun Hstop. induction run as [|x run IH]; simpl in *.
  - split; [|reflexivity]. destruct rest as [|c r]; [reflexivity|].
    simpl. rewrite Hstop. reflexivity.
  - apply andb_prop in Hrun as [Hx Hr]. rewrite Hx.
    destruct (IH Hr) as [-> ->]. split; reflexivity.
Qed.

(** At the start of a sequence of the language the matcher finds exactly
    that sequence, whatever follows it. *)
Lemma match_ansi_seq (e rest : string) :
  ansi_seq e -> match_ansi (e ++ rest) = Some (String.length e).
Proof.
  intros [ps ins f Hps Hins Hf]. simpl.
  unfold esc, lbracket. simpl.
  change (Ascii.eqb _ _ && Ascii.eqb _ _) with true. cbv iota.
  rewrite !str_app_assoc.
  destruct (classes_disjoint f) as [_ Hff]. destruct (Hff Hf) as [Hfp Hfi].
  assert (Hstop1 : match ins ++ String f "" ++ rest with
                   | String c _ => is_param c = false
                   | EmptyString => True
                   end).
  { destruct ins as [|c ins']; simpl; [exact Hfp|].
    simpl in Hins. apply andb_prop in Hins as [Hc _].
    destruct (classes_disjoint c) as [Hd _]. apply Hd, Hc. }
  destruct (span_len_run is_param ps (ins ++ String f "" ++ rest) Hps Hstop1)
    as [-> ->].
  assert (Hstop2 : match String f "" ++ rest with
                   | String c _ => is_inter c = false
                   | EmptyString => True
                   end) by exact Hfi.
  destruct (span_len_run is_inter ins (String f "" ++ rest) Hins Hstop2)
    as [-> ->].
  simpl. rewrite Hf. f_equal.
  rewrite !str_length_app. simpl. lia.
Qed.

Lemma span_len_split (p : ascii -> bool) (s : string) :
  exists run : string,
    s = run ++ PyStr.str_drop (PyStr.span_len p s) s /\
    PyStr.all_chars p run = true /\
    String.length run = PyStr.span_len p s.
Proof.
  induction s as [|c s (run & Hs & Hall & Hlen)]; simpl.
  - exists "". auto.
  - destruct (p c) eqn:Hc.
    + exists (String c run). simpl. rewrite Hc, Hall, Hlen, <- Hs. auto.
    + exists "". auto.
Qed.

(** The matcher accepts exactly the prefixes that belong to the language
    of the pattern, and there is at most one such prefix: a backtracking
    search has nothing else to find. *)
Lemma match_ansi_spec (s : string) (n : nat) :
  match_ansi s = Some n <->
  exists e rest : string, s = e ++ rest /\ ansi_seq e /\ String.length e = n.
Proof.
  split.
  - destruct s as [|c1 [|c2 s2]]; simpl; try discriminate.
    destruct (Ascii.eqb_spec c1 esc) as [->|]; [|discriminate].
    destruct (Ascii.eqb_spec c2 lbracket) as [->|]; [|discriminate]. simpl.
    destruct (span_len_split is_param s2) as (ps & Hs2 & Hps & Hl1).
    set (s3 := PyStr.str_drop (PyStr.span_len is_param s2) s2) in *.
    destruct (span_len_split is_inter s3) as (ins & Hs3 & Hins & Hl2).
    destruct (PyStr.str_drop (PyStr.span_len is_inter s3) s3) as [|f rest];
      [discriminate|].
    destruct (is_final f) eqn:Hf; [|discriminate].
    intros [= <-].
    exists (String esc (String lbracket (ps ++ ins ++ String f ""))), rest.
    split; [|split].
    + simpl. rewrite Hs2 at 1. rewrite Hs3 at 1.
      rewrite !str_app_assoc. reflexivity.
    + constructor; assumption.
    + simpl. rewrite !str_length_app, Hl1, Hl2. simpl. lia.
  - intros (e & rest & -> & He & <-). apply match_ansi_seq, He.
Qed.

Lemma match_ansi_unique (s e1 r1 e2 r2 : string) :
  s = e1 ++ r1 -> ansi_seq e1 -> s = e2 ++ r2 -> ansi_seq e2 ->
  String.length e1 = String.length e2.
Proof.
  intros -> H1 Heq H2.
  pose proof (match_ansi_seq e1 r1 H1) as M1. rewrite Heq in M1.
  rewrite (match_ansi_seq e2 r2 H2) in M1. congruence.
Qed.

Lemma sub_ansi_skip (a rest : string) :
  sub_ansi (String.length a) (a ++ rest) = sub_ansi 0 rest.
Proof.
  induction a as [|c a IH]; simpl.
  - destruct rest; reflexivity.
  - exact IH.
Qed.

Lemma strip_ansi_seq (e rest : string) :
  ansi_seq e -> _strip_ansi (e ++ rest) = _strip_ansi rest.
Proof.
  intros He. unfold _strip_ansi.
  pose proof (match_ansi_seq e rest He) as Hm.
  destruct He as [ps ins f Hps Hins Hf].
  set (body := String lbracket (ps ++ ins ++ String f "")) in *.
  change (String esc body ++ rest) with (String esc (body ++ rest)) in *.
  cbn [sub_ansi]. rewrite Hm. cbn [String.length].
  replace (S (String.length body) - 1)%nat with (String.length body) by lia.
  apply sub_ansi_skip.
Qed.

Lemma strip_ansi_text (t rest : string) :
  esc_free t = true -> _strip_ansi (t ++ rest) = t ++ _strip_ansi rest.
Proof.
  unfold _strip_ansi, esc_free. induction t as [|c t IH]; intros Ht.
  - reflexivity.
  - simpl in Ht. apply andb_prop in Ht as [Hc Ht].
    change (String c t ++ rest) with (String c (t ++ rest)).
    cbn [sub_ansi].
    assert (Hno : match_ansi (String c (t ++ rest)) = None).
    { unfold match_ansi. destruct (t ++ rest); [reflexivity|].
      apply negb_true_iff in Hc. rewrite Hc. reflexivity. }
    rewrite Hno, (IH Ht). reflexivity.
Qed.

Lemma strip_ansi_plain (t : string) : esc_free t = true -> _strip_ansi t = t.
Proof.
  intros Ht. rewrite <- (str_app_nil_r t) at 1.
  rewrite (strip_ansi_text t "" Ht). apply str_app_nil_r.
Qed.

Lemma sub_ansi_match (s : string) (n : nat) :
  match_ansi s = Some n ->
  exists e rest : string,
    s = e ++ rest /\ ansi_seq e /\ sub_ansi 0 s = sub_ansi 0 rest /\
    (String.length rest < String.length s)%nat.
Proof.
  intros Hm. destruct (proj1 (match_ansi_spec s n) Hm) as (e & rest & -> & He & Hn).
  exists e, rest. split; [reflexivity|]. split; [exact He|].
  split; [apply (strip_ansi_seq e rest He)|].
  rewrite str_length_app. destruct He. simpl. lia.
Qed.

(** The function deletes the sequences of a left-to-right scan and nothing
    else, for every input. *)
Lemma strip_ansi_stripped (s : string) : stripped s (_strip_ansi s).
Proof.
  unfold _strip_ansi.
  remember (String.length s) as n eqn:Hn. revert s Hn.
  induction n as [n IH] using lt_wf_ind. intros s Hn.
  destruct s as [|c r]; [constructor|].
  destruct (match_ansi (String c r)) as [m|] eqn:Hm.
  - destruct (sub_ansi_match _ _ Hm) as (e & rest & Hs & He & Hsub & Hlt).
    rewrite Hsub, Hs. apply stripped_seq; [exact He|].
    apply (IH (String.length rest)); [rewrite Hn; exact Hlt | reflexivity].
  - cbn [sub_ansi]. rewrite Hm. apply stripped_char.
    + intros e r' Hs He.
      assert (Hsome : match_ansi (String c r) = Some (String.length e))
        by (rewrite Hs; apply match_ansi_seq, He).
      congruence.
    + apply (IH (String.length r)); [rewrite Hn; simpl; lia | reflexivity].
Qed.

(** C8 as stated fails: not every control sequence is gone from the text
    that reaches the display.  The scan does not look again at what a
    deletion brings together: from ESC ESC[0m [0m 42% the hook hands
    'Downloading clip.mp3 ESC[0m42%' to [after], and that text is shown
    with the sequence ESC[0m in it.  A sequence outside the pattern, such
    as the operating system command ESC ] 0;t BEL, is shown untouched. *)
Lemma displayed_percent_keeps_sequence :
  yt_dlp_hook ext0 progress_nested
    = [OpAfter 0 (CbDownloadStatus
         ("Downloading clip.mp3 " ++ String esc "[0m" ++ "42%"))] /\
  download_status (drain ext0 (exec ext0 (EvHook progress_nested) init))
    = "Downloading clip.mp3 " ++ String esc "[0m" ++ "42%" /\
  ansi_seq (String esc "[0m") /\
  download_status (drain ext0 (exec ext0 (EvHook progress_osc) init))
    = "Downloading clip.mp3 " ++ percent_osc.
Proof.
  split; [reflexivity|]. split; [reflexivity|]. split; [|reflexivity].
  exact (ansi_seq_intro "0" "" "m" eq_refl eq_refl eq_refl).
Qed.

(** C8, amended.  For every progress event, the percent text that
    [yt_dlp_hook] puts into the 'downloading' message is the stripped text
    of the event without the sequences of the pattern ESC [ [0-?]* [ -/]*
    [@-~] that one scan from the left finds in it; every other character is
    kept.  When the text consists of pieces free of the escape character
    with sequences of the pattern's language between them, exactly the
    pieces remain.  The example of the specification becomes "42%". *)
Theorem strip_ansi_removes_sequences (ext : Externals)
    (segs : list (string * string)) (last : string) (d : Progress) :
  Forall (fun te => esc_free (fst te) = true /\ ansi_seq (snd te)) segs ->
  esc_free last = true ->
  (forall s : string, stripped s (_strip_ansi s)) /\
  _strip_ansi (interleave segs last) = plain_text segs last /\
  _strip_ansi percent_example = "42%" /\
  (status d = Some "downloading" ->
   yt_dlp_hook ext d =
     [OpAfter 0 (CbDownloadStatus
        ("Downloading " ++ os_path_basename ext (default "" (filename d))
           ++ " " ++ _strip_ansi (PyStr.strip (default "" (_percent_str d)))))]) /\
  (status d = Some "downloading" ->
   PyStr.strip (default "" (_percent_str d)) = interleave segs last ->
   yt_dlp_hook ext d =
     [OpAfter 0 (CbDownloadStatus
        ("Downloading " ++ os_path_basename ext (default "" (filename d))
           ++ " " ++ plain_text segs last))]).
Proof.
  intros Hsegs Hlast.
  assert (Hmain : _strip_ansi (interleave segs last) = plain_text segs last).
  { induction Hsegs as [|[t e] segs [Ht He] _ IH]; simpl.
    - apply strip_ansi_plain, Hlast.
    - simpl in Ht, He.
      rewrite (strip_ansi_text t _ Ht), (strip_ansi_seq e _ He), IH. reflexivity. }
  split; [exact strip_ansi_stripped|].
  split; [exact Hmain|]. split; [reflexivity|]. split.
  - intros Hst. unfold yt_dlp_hook. rewrite Hst. reflexivity.
  - intros Hst Hraw. unfold yt_dlp_hook. rewrite Hst, Hraw, Hmain. reflexivity.
Qed.

Lemma strip_ansi_removes_sequences_witness :
  _strip_ansi (interleave example_segs "") = "42%" /\
  yt_dlp_hook ext0 progress_example =
    [OpAfter 0 (CbDownloadStatus "Downloading clip.mp3 42%")].
Proof.
  assert (Hsegs : Forall (fun te => esc_free (fst te) = true /\ ansi_seq (snd te))
                    example_segs).
  { constructor; [split; [reflexivity|]|constructor; [split; [reflexivity|]|constructor]].
    - exact (ansi_seq_intro "0;94" "" "m" eq_refl eq_refl eq_refl).
    - exact (ansi_seq_intro "0" "" "m" eq_refl eq_refl eq_refl). }
  destruct (strip_ansi_removes_sequences ext0 example_segs "" progress_example
              Hsegs eq_refl) as (_ & H1 & _ & _ & H3).
  split; [exact H1 | exact (H3 eq_refl eq_refl)].
Defined.

(** ** The supported-platform check *)

Lemma startswith_spec (needle s : string) :
  PyStr.startswith needle s = true <-> exists post : string, s = needle ++ post.
Proof.
  revert s. induction needle as [|a n IH]; intros s; simpl.
  - split; [intros _; exists s; reflexivity | reflexivity].
  - destruct s as [|b s].
    + split; [discriminate | intros [post H]; discriminate].
    + rewrite andb_true_iff, IH. split.
      * intros [Hab [post ->]]. apply Ascii.eqb_eq in Hab as ->.
        exists post. reflexivity.
      * intros [post [= -> ->]]. split; [apply Ascii.eqb_refl | eauto].
Qed.

Lemma contains_spec (needle s : string) :
  PyStr.contains needle s = true <-> substring_of needle s.
Proof.
  unfold substring_of. split.
  - induction s as [|c s IH].
    + simpl. rewrite orb_false_r. intros H.
      apply startswith_spec in H as [post ->]. exists "", post. reflexivity.
    + cbn [PyStr.contains]. intros H. apply orb_prop in H as [H|H].
      * apply startswith_spec in H as [post ->]. exists "", post. reflexivity.
      * destruct (IH H) as (pre & post & ->). exists (String c pre), post. reflexivity.
  - intros (pre & post & ->). induction pre as [|c pre IH].
    + simpl. assert (Hs : PyStr.startswith needle (needle ++ post) = true)
        by (apply startswith_spec; eauto).
      destruct (needle ++ post); cbn [PyStr.contains]; rewrite Hs; reflexivity.
    + change (String c pre ++ needle ++ post)
        with (String c (pre ++ needle ++ post)).
      cbn [PyStr.contains]. rewrite IH. apply orb_true_r.
Qed.

(** C10.  [_is_youtube_url] answers true exactly when the address parses and
    the lower-cased network location has "youtube.com" or "youtu.be"
    somewhere inside it; it answers false when parsing raises; and a
    location that merely embeds the name, such as
    www.youtube.com.evil.example, is accepted. *)
Theorem is_youtube_url_spec (ext : Externals) (url : string) :
  (_is_youtube_url ext url = true <->
     exists netloc : string,
       urlparse_netloc ext url = Some netloc /\
       (substring_of "youtube.com" (PyStr.lower netloc) \/
        substring_of "youtu.be" (PyStr.lower netloc))) /\
  (urlparse_netloc ext url = None -> _is_youtube_url ext url = false) /\
  (urlparse_netloc ext url = Some "www.youtube.com.evil.example" ->
     _is_youtube_url ext url = true).
Proof.
  unfold _is_youtube_url. split; [|split].
  - destruct (urlparse_netloc ext url) as [netloc|].
    + rewrite orb_true_iff, !contains_spec. split.
      * intros H. exists netloc. split; [reflexivity | exact H].
      * intros (n & [= <-] & H). exact H.
    + split; [discriminate | intros (n & H & _); discriminate].
  - intros ->. reflexivity.
  - intros ->. reflexivity.
Qed.

Lemma is_youtube_url_spec_witness :
  urlparse_netloc ext0 evil_url = Some "www.youtube.com.evil.example" /\
  _is_youtube_url ext0 evil_url = true.
Proof.
  split; [reflexivity|].
  destruct (is_youtube_url_spec ext0 evil_url) as (_ & _ & H).
  apply H. reflexivity.
Defined.

(** ** Threads and the callback queue *)

Lemma run_op_threads (o : Op) (g : GUI) : threads (run_op o g) = threads g.
Proof. destruct o as [[|ms] cb| | |]; reflexivity. Qed.

Lemma run_op_set_threads (o : Op) (ts : list Thread) (g : GUI) :
  run_op o (set_threads ts g) = set_threads ts (run_op o g).
Proof. destruct o as [[|ms] cb| | |]; reflexivity. Qed.

Lemma run_ops_set_threads (ops : list Op) (ts : list Thread) (g : GUI) :
  run_ops ops (set_threads ts g) = set_threads ts (run_ops ops g).
Proof.
  unfold run_ops. revert g. induction ops as [|o ops IH]; intros g; simpl.
  - reflexivity.
  - rewrite run_op_set_threads. apply IH.
Qed.

Lemma run_cons (ext : Externals) (e : Event) (evs : list Event) (g : GUI) :
  run ext (e :: evs) g = run ext evs (exec ext e g).
Proof. reflexivity. Qed.

Lemma run_app (ext : Externals) (evs1 evs2 : list Event) (g : GUI) :
  run ext (evs1 ++ evs2)%list g = run ext evs2 (run ext evs1 g).
Proof. unfold run. apply fold_left_app. Qed.

Lemma exec_EvOp (ext : Externals) (k : nat) (o : Op) (r : list Op) (g : GUI) :
  threads g !! k = Some (TRunning (o :: r)) ->
  exec ext (EvOp k) g
    = run_op o (set_threads (<[k := TRunning r]> (threads g)) g).
Proof. intros H. unfold exec. rewrite H. reflexivity. Qed.

Lemma exec_EvStart (ext : Externals) (k : nat) (fetched : option Info)
    (t : Thread) (g : GUI) :
  threads g !! k = Some t ->
  (forall ops, t <> TRunning ops) ->
  exec ext (EvStart k fetched) g
    = set_threads (<[k := TRunning (thread_ops ext t fetched)]> (threads g)) g.
Proof.
  intros H Hnew. unfold exec. rewrite H.
  destruct t; try reflexivity. exfalso. eapply Hnew. reflexivity.
Qed.

Lemma exec_EvIdle (ext : Externals) (cb : Callback) (q : list Callback) (g : GUI) :
  after_queue g = cb :: q ->
  exec ext EvIdle g = run_callback ext cb (set_after_queue q g).
Proof. intros H. unfold exec. rewrite H. reflexivity. Qed.

Lemma run_ops_cons (o : Op) (ops : list Op) (g : GUI) :
  run_ops (o :: ops) g = run_ops ops (run_op o g).
Proof. reflexivity. Qed.

Lemma set_threads_twice (a b : list Thread) (g : GUI) :
  set_threads a (set_threads b g) = set_threads a g.
Proof. reflexivity. Qed.

(** A running thread that is given as many turns as it has statements runs
    them in order and ends with none left. *)
Lemma run_thread_turns (ext : Externals) (k : nat) (ops : list Op) :
  forall g : GUI,
    threads g !! k = Some (TRunning ops) ->
    run ext (repeat (EvOp k) (length ops)) g
      = set_threads (<[k := TRunning []]> (threads g)) (run_ops ops g).
Proof.
  induction ops as [|o ops IH]; intros g Hk.
  - simpl. rewrite list_insert_id by exact Hk. destruct g; reflexivity.
  - assert (Hlt : (k < length (threads g))%nat) by (eapply lookup_lt_Some; eauto).
    change (repeat (EvOp k) (length (o :: ops)))
      with (EvOp k :: repeat (EvOp k) (length ops)).
    rewrite run_cons, (exec_EvOp ext k o ops g Hk), IH.
    + rewrite run_op_threads. cbn [threads set_threads].
      rewrite list_insert_insert_eq, run_ops_cons.
      rewrite run_op_set_threads, run_ops_set_threads.
      apply set_threads_twice.
    + rewrite run_op_threads. cbn [threads set_threads].
      apply list_lookup_insert_eq. exact Hlt.
Qed.

(** What [complete] amounts to for a thread that has not started. *)
Lemma complete_eq (ext : Externals) (k : nat) (fetched : option Info)
    (g : GUI) (t : Thread) :
  threads g !! k = Some t ->
  (forall ops, t <> TRunning ops) ->
  complete ext k fetched g
    = set_threads (<[k := TRunning []]> (threads g))
        (run_ops (thread_ops ext t fetched) g).
Proof.
  intros Hk Hnew. unfold complete. rewrite Hk.
  assert (Hlt : (k < length (threads g))%nat) by (eapply lookup_lt_Some; eauto).
  rewrite run_cons, (exec_EvStart ext k fetched t g Hk Hnew), run_thread_turns.
  - cbn [threads set_threads]. rewrite list_insert_insert_eq, run_ops_set_threads.
    apply set_threads_twice.
  - cbn [threads set_threads]. apply list_lookup_insert_eq. exact Hlt.
Qed.

Lemma ufd_set_after_queue (q : list Callback) (g : GUI) :
  update_filesize_display (set_after_queue q g)
    = set_after_queue q (update_filesize_display g).
Proof.
  unfold update_filesize_display, spawn. cbn.
  destruct (PyStr.is_empty _); [reflexivity|].
  destruct (size_cache g !! _); reflexivity.
Qed.

Lemma refresh_body_set_after_queue (w : string -> GUI -> GUI)
    (q : list Callback) :
  (forall l g, w l (set_after_queue q g) = set_after_queue q (w l g)) ->
  forall g, refresh_body w (set_after_queue q g)
            = set_after_queue q (refresh_body w g).
Proof.
  intros Hw g. unfold refresh_body. cbn.
  destruct (current_info g) as [info|]; [|reflexivity].
  destruct (info_is_empty info); [reflexivity|].
  destruct (formats info) as [fs|]; [|reflexivity].
  destruct (needs_fallback _ _); [destruct (first_normal _)|];
    rewrite <- ufd_set_after_queue; f_equal.
  apply (Hw s (set_quality_menu _ (set_quality_menu [] g))).
Qed.

Lemma refresh_set_after_queue (q : list Callback) (g : GUI) :
  _refresh_quality_menu (set_after_queue q g)
    = set_after_queue q (_refresh_quality_menu g).
Proof.
  apply refresh_body_set_after_queue. intros l g'. unfold quality_var_set.
  rewrite <- (refresh_body_set_after_queue set_quality_var q); [reflexivity|].
  reflexivity.
Qed.

Lemma run_callback_set_after_queue (ext : Externals) (cb : Callback)
    (q : list Callback) (g : GUI) :
  run_callback ext cb (set_after_queue q g)
    = set_after_queue q (run_callback ext cb g).
Proof.
  destruct cb as [text| |t th| | |text|text]; cbn [run_callback];
    try reflexivity.
  - unfold upd. destruct th as [u|]; [|reflexivity].
    destruct (truthy (Some u)); [|reflexivity]. cbn.
    destruct (get_thumbnail ext u); reflexivity.
  - apply refresh_set_after_queue.
  - apply ufd_set_after_queue.
Qed.

Lemma run_callback_after_queue (ext : Externals) (cb : Callback) (g : GUI) :
  after_queue (run_callback ext cb g) = after_queue g.
Proof.
  destruct cb as [text| |t th| | |text|text]; cbn [run_callback];
    try reflexivity.
  - unfold upd. destruct th as [u|]; [|reflexivity].
    destruct (truthy (Some u)); [|reflexivity]. cbn.
    destruct (get_thumbnail ext u); reflexivity.
  - apply refresh_after_queue.
  - apply ufd_after_queue.
Qed.

Lemma run_callbacks_set_after_queue (ext : Externals) (q q' : list Callback) :
  forall g : GUI,
    run_callbacks ext q (set_after_queue q' g)
      = set_after_queue q' (run_callbacks ext q g).
Proof.
  unfold run_callbacks. induction q as [|cb q IH]; intros g.
  - reflexivity.
  - cbn [fold_left]. rewrite run_callback_set_after_queue. apply IH.
Qed.

Lemma set_after_queue_twice (a b : list Callback) (g : GUI) :
  set_after_queue a (set_after_queue b g) = set_after_queue a g.
Proof. reflexivity. Qed.

(** Draining the queue runs its callbacks oldest first and leaves it empty. *)
Lemma drain_eq (ext : Externals) (g : GUI) :
  drain ext g = set_after_queue [] (run_callbacks ext (after_queue g) g).
Proof.
  unfold drain. remember (after_queue g) as q eqn:Hq. revert g Hq.
  induction q as [|cb q IH]; intros g Hq.
  - simpl. rewrite Hq. destruct g; reflexivity.
  - change (repeat EvIdle (length (cb :: q)))
      with (EvIdle :: repeat EvIdle (length q)).
    rewrite run_cons, (exec_EvIdle ext cb q g (eq_sym Hq)), IH.
    + unfold run_callbacks at 2. cbn [fold_left]. fold (run_callbacks ext q).
      rewrite run_callback_set_after_queue, run_callbacks_set_after_queue.
      apply set_after_queue_twice.
    + rewrite run_callback_set_after_queue. reflexivity.
Qed.

(** ** What the callbacks leave alone *)

Ltac solve_upd th :=
  unfold upd; destruct th as [?u|]; [|reflexivity];
  destruct (truthy (Some _)); [|reflexivity]; cbn;
  destruct (get_thumbnail _ _); reflexivity.

Lemma upd_video_title ext t th g : video_title (upd ext t th g) = t.
Proof. solve_upd th. Qed.

Lemma upd_current_info ext t th g : current_info (upd ext t th g) = current_info g.
Proof. solve_upd th. Qed.

Lemma upd_size_cache ext t th g : size_cache (upd ext t th g) = size_cache g.
Proof. solve_upd th. Qed.

Lemma upd_in_link_entry ext t th g : in_link_entry (upd ext t th g) = in_link_entry g.
Proof. solve_upd th. Qed.

Lemma upd_thumbnail ext info g :
  thumbnail (upd ext (default "" (title info)) (thumbnail_url info) g)
    = shown_thumbnail ext info.
Proof.
  unfold upd, shown_thumbnail. destruct (thumbnail_url info) as [u|]; [|reflexivity].
  destruct (truthy (Some u)); [|reflexivity]. cbn.
  destruct (get_thumbnail ext u); reflexivity.
Qed.

Lemma ufd_thumbnail g : thumbnail (update_filesize_display g) = thumbnail g.
Proof. unfold_ufd. Qed.

Lemma refresh_thumbnail g : thumbnail (_refresh_quality_menu g) = thumbnail g.
Proof. apply (refresh_frame thumbnail); auto using ufd_thumbnail. Qed.

Lemma run_callback_size_cache ext cb g :
  size_cache (run_callback ext cb g) = size_cache g.
Proof.
  destruct cb; cbn [run_callback]; try reflexivity;
    auto using upd_size_cache, refresh_size_cache, ufd_size_cache.
Qed.

Lemma run_callback_in_link_entry ext cb g :
  in_link_entry (run_callback ext cb g) = in_link_entry g.
Proof.
  destruct cb; cbn [run_callback]; try reflexivity;
    auto using upd_in_link_entry, refresh_in_link_entry, ufd_in_link_entry.
Qed.

Lemma run_callback_current_info ext cb g :
  cb <> CbReset -> current_info (run_callback ext cb g) = current_info g.
Proof.
  intros Hcb. destruct cb; cbn [run_callback]; try reflexivity; try congruence;
    auto using upd_current_info, refresh_current_info, ufd_current_info.
Qed.

Lemma run_callbacks_app ext q1 q2 g :
  run_callbacks ext (q1 ++ q2)%list g
    = run_callbacks ext q2 (run_callbacks ext q1 g).
Proof. unfold run_callbacks. apply fold_left_app. Qed.

Lemma run_callbacks_size_cache ext q : forall g,
  size_cache (run_callbacks ext q g) = size_cache g.
Proof.
  unfold run_callbacks. induction q as [|cb q IH]; intros g; simpl;
    [reflexivity | rewrite IH; apply run_callback_size_cache].
Qed.

Lemma run_callbacks_in_link_entry ext q : forall g,
  in_link_entry (run_callbacks ext q g) = in_link_entry g.
Proof.
  unfold run_callbacks. induction q as [|cb q IH]; intros g; simpl;
    [reflexivity | rewrite IH; apply run_callback_in_link_entry].
Qed.

Lemma run_callbacks_current_info ext q : forall g,
  ~ In CbReset q -> current_info (run_callbacks ext q g) = current_info g.
Proof.
  unfold run_callbacks. induction q as [|cb q IH]; intros g Hq; simpl.
  - reflexivity.
  - rewrite IH by (intros H; apply Hq; right; exact H).
    apply run_callback_current_info. intros ->. apply Hq. left. reflexivity.
Qed.

(** ** A fetch that succeeds *)

Lemma wait_link_success (ext : Externals) (url : string) (info : Info) :
  PyStr.is_empty url = false ->
  validators_url ext url = true ->
  _is_youtube_url ext url = true ->
  wait_link ext url (Some info) =
    [OpAfter 0 (CbLinkStatus "Verifying link...");
     OpAfter 0 (CbLinkStatus "Link correct...");
     OpAfter 1000 (CbLinkStatus "Fetching link...");
     OpSetInfo info;
     OpAfter 0 (CbUpd (default "" (title info)) (thumbnail_url info));
     OpSetInfo info;
     OpClearCache;
     OpAfter 0 CbRefreshQuality;
     OpAfter 0 CbUpdateFilesize;
     OpAfter 0 (CbLinkStatus "Link fetched!")].
Proof. intros He Hv Hy. unfold wait_link. rewrite He, Hv, Hy. reflexivity. Qed.

Lemma wait_link_failure (ext : Externals) (url : string) :
  PyStr.is_empty url = false ->
  validators_url ext url = true ->
  _is_youtube_url ext url = true ->
  wait_link ext url None =
    [OpAfter 0 (CbLinkStatus "Verifying link...");
     OpAfter 0 (CbLinkStatus "Link correct...");
     OpAfter 1000 (CbLinkStatus "Fetching link...");
     OpAfter 0 (CbLinkStatus "Error fetching link.")].
Proof. intros He Hv Hy. unfold wait_link. rewrite He, Hv, Hy. reflexivity. Qed.

(** The state in which a successful fetch leaves the shared object when its
    statements run without interruption. *)
Lemma complete_fetch_state (ext : Externals) (g : GUI) (k : nat) (url : string)
    (info : Info) :
  threads g !! k = Some (TWaitLink url) ->
  PyStr.is_empty url = false ->
  validators_url ext url = true ->
  _is_youtube_url ext url = true ->
  let g1 := complete ext k (Some info) g in
  current_info g1 = Some info /\
  size_cache g1 = ∅ /\
  in_link_entry g1 = in_link_entry g /\
  after_queue g1 =
    (after_queue g ++
       [CbLinkStatus "Verifying link...";
        CbLinkStatus "Link correct...";
        CbUpd (default "" (title info)) (thumbnail_url info);
        CbRefreshQuality;
        CbUpdateFilesize;
        CbLinkStatus "Link fetched!"])%list.
Proof.
  intros Hk He Hv Hy g1. subst g1.
  rewrite (complete_eq ext k (Some info) g (TWaitLink url) Hk) by discriminate.
  cbn [thread_ops]. rewrite (wait_link_success ext url info He Hv Hy).
  cbn. rewrite <- !app_assoc. repeat split; reflexivity.
Qed.

(** C1 as stated fails: the link is edited to A and then to B; B's fetch
    returns first, A's second.  The entry holds B, the panel shows A. *)
Lemma stale_fetch_overwrites_newer :
  threads race_start = [TWaitLink urlA; TWaitLink urlB] /\
  video_title race_B_done = "B" /\
  current_info race_B_done = Some infoB /\
  in_link_entry race_A_done = urlB /\
  video_title race_A_done = "A" /\
  current_info race_A_done = Some infoA /\
  current_info race_A_done <> Some infoB.
Proof. vm_compute. repeat split; try reflexivity. discriminate. Qed.

(** C1, amended.  No generation is recorded and nothing is compared with
    the link entry: whatever happened before and whatever the entry holds, a
    fetch that succeeds and whose statements run without interruption
    stores its metadata, and once the queued callbacks have run the panel
    shows its title and thumbnail.  The panel therefore follows the fetch
    that returns last, not the edit made last.  (A panel reset still queued
    when the fetch returns is the one thing that can undo the stored
    metadata, hence the hypothesis on the queue.) *)
Theorem last_completed_fetch_is_displayed (ext : Externals) (g : GUI) (k : nat)
    (url : string) (info : Info) :
  threads g !! k = Some (TWaitLink url) ->
  PyStr.is_empty url = false ->
  validators_url ext url = true ->
  _is_youtube_url ext url = true ->
  ~ In CbReset (after_queue g) ->
  let g' := drain ext (complete ext k (Some info) g) in
  current_info g' = Some info /\
  video_title g' = default "" (title info) /\
  thumbnail g' = shown_thumbnail ext info /\
  in_link_entry g' = in_link_entry g.
Proof.
  intros Hk He Hv Hy Hq g'. subst g'.
  destruct (complete_fetch_state ext g k url info Hk He Hv Hy)
    as (Hci & _ & Hle & Hqueue).
  rewrite drain_eq, Hqueue, run_callbacks_app.
  set (g2 := run_callbacks ext (after_queue g) (complete ext k (Some info) g)).
  assert (Hci2 : current_info g2 = Some info)
    by (unfold g2; rewrite run_callbacks_current_info; assumption).
  assert (Hle2 : in_link_entry g2 = in_link_entry g)
    by (unfold g2; rewrite run_callbacks_in_link_entry; assumption).
  unfold run_callbacks. cbn [fold_left run_callback].
  cbn [current_info video_title thumbnail in_link_entry set_after_queue
       set_link_status].
  rewrite ufd_current_info, refresh_current_info, upd_current_info.
  rewrite ufd_video_title, refresh_video_title, upd_video_title.
  rewrite ufd_thumbnail, refresh_thumbnail, upd_thumbnail.
  rewrite ufd_in_link_entry, refresh_in_link_entry, upd_in_link_entry.
  cbn. auto.
Qed.

Lemma last_completed_fetch_is_displayed_witness :
  in_link_entry race_B_done = urlB /\
  current_info race_A_done = Some infoA /\
  video_title race_A_done = "A".
Proof.
  assert (Hq : ~ In CbReset (after_queue race_B_done))
    by (vm_compute; intros []).
  destruct (last_completed_fetch_is_displayed ext0 race_B_done 0 urlA infoA
              eq_refl eq_refl eq_refl eq_refl Hq) as (Hci & Hvt & _ & _).
  split; [reflexivity|]. split; [exact Hci | exact Hvt].
Defined.

(** ** Size estimates *)

(** C2 as stated fails: the estimate for 'Medium' returns after the user
    has moved to 'Low', whose own estimate is still running; the label shows
    the 'Medium' figure. *)
Lemma stale_estimate_is_displayed :
  threads sel_low !! 1%nat = Some (TEstimate urlA true "Medium") /\
  in_link_entry sel_stale = urlA /\
  is_mp3 sel_stale = true /\
  quality_var sel_stale = "Low" /\
  size_cache sel_stale !! (urlA, true, "Low") = None /\
  filesize_label sel_stale = SizeEstimated 5242880.
Proof. vm_compute. repeat split; reflexivity. Qed.

(** C2, amended.  An estimation that succeeds performs one cache write,
    under its own key, and queues one label update; when its statements
    have run and the queue is drained the cache maps the key to the total
    and the label shows that total, whatever link, kind and quality are
    selected by then.  An estimation that raises leaves the cache as it was
    and the label says 'Size unknown'. *)
Theorem estimate_is_published_unconditionally (ext : Externals) (g : GUI)
    (k : nat) (url : string) (mp3 : bool) (quality : string) (info : Info) :
  threads g !! k = Some (TEstimate url mp3 quality) ->
  let total := estimate_total info in
  let done := drain ext (complete ext k (Some info) g) in
  let failed := drain ext (complete ext k None g) in
  thread_ops ext (TEstimate url mp3 quality) (Some info)
    = [OpCachePut (url, mp3, quality) total;
       OpAfter 0 (CbFilesizeLabel (SizeEstimated total))] /\
  size_cache done !! (url, mp3, quality) = Some total /\
  filesize_label done = SizeEstimated total /\
  size_cache failed = size_cache g /\
  filesize_label failed = SizeUnknown.
Proof.
  intros Hk total done failed. subst done failed.
  split; [reflexivity|].
  rewrite !drain_eq.
  rewrite !(complete_eq ext k _ g (TEstimate url mp3 quality) Hk) by discriminate.
  cbn [thread_ops _estimate_and_update_size]. fold total.
  unfold run_ops. cbn [fold_left run_op].
  cbn [after_queue set_threads set_after_queue set_size_cache].
  rewrite !run_callbacks_app.
  unfold run_callbacks at 1 3. cbn [fold_left run_callback].
  cbn [size_cache filesize_label set_after_queue set_filesize_label].
  rewrite !run_callbacks_size_cache. cbn.
  repeat split. apply lookup_insert_eq.
Qed.

Lemma estimate_is_published_unconditionally_witness :
  quality_var sel_low = "Low" /\
  filesize_label sel_stale = SizeEstimated 5242880 /\
  size_cache sel_stale !! (urlA, true, "Medium") = Some 5242880%Z.
Proof.
  destruct (estimate_is_published_unconditionally ext0 sel_low 1 urlA true
              "Medium" (est_info 5242880) eq_refl) as (_ & Hc & Hl & _).
  split; [reflexivity|]. split; [exact Hl | exact Hc].
Defined.




(** ** The cache flush of a successful fetch *)

(** C4 as stated fails on the order: the fetch stores the new metadata and
    queues its display before it clears the cache.  Here B's title is on
    the panel and [current_info] is B's while the entry cached for A is
    still there and the clearing statement has yet to run. *)
Lemma metadata_shown_before_cache_cleared :
  threads refetch !! 3%nat = Some (TWaitLink urlB) /\
  size_cache refetch !! (urlA, true, "Medium") = Some 5242880%Z /\
  current_info refetch_mid = Some infoB /\
  video_title refetch_mid = "B" /\
  size_cache refetch_mid !! (urlA, true, "Medium") = Some 5242880%Z /\
  threads refetch_mid !! 3%nat
    = Some (TRunning [OpSetInfo infoB; OpClearCache;
                      OpAfter 0 CbRefreshQuality; OpAfter 0 CbUpdateFilesize;
                      OpAfter 0 (CbLinkStatus "Link fetched!")]).
Proof. vm_compute. repeat split; reflexivity. Qed.

(** C4, amended.  A fetch that succeeds clears the whole cache, after it
    has stored the new metadata and queued the title and thumbnail update
    and before it queues the quality refresh, the size update and the final
    status.  When its statements have run the cache is empty, and it is
    still empty once the queued callbacks have run: no key cached earlier
    can be looked up. *)
Theorem fetch_clears_cache (ext : Externals) (g : GUI) (k : nat)
    (url : string) (info : Info) :
  threads g !! k = Some (TWaitLink url) ->
  PyStr.is_empty url = false ->
  validators_url ext url = true ->
  _is_youtube_url ext url = true ->
  (exists pre post : list Op,
     wait_link ext url (Some info) = (pre ++ OpClearCache :: post)%list /\
     In (OpSetInfo info) pre /\
     In (OpAfter 0 (CbUpd (default "" (title info)) (thumbnail_url info))) pre /\
     ~ In OpClearCache pre /\
     post = [OpAfter 0 CbRefreshQuality; OpAfter 0 CbUpdateFilesize;
             OpAfter 0 (CbLinkStatus "Link fetched!")]) /\
  size_cache (complete ext k (Some info) g) = ∅ /\
  (forall key : string * bool * string,
     size_cache (drain ext (complete ext k (Some info) g)) !! key = None).
Proof.
  intros Hk He Hv Hy. split; [|split].
  - rewrite (wait_link_success ext url info He Hv Hy).
    exists [OpAfter 0 (CbLinkStatus "Verifying link...");
            OpAfter 0 (CbLinkStatus "Link correct...");
            OpAfter 1000 (CbLinkStatus "Fetching link...");
            OpSetInfo info;
            OpAfter 0 (CbUpd (default "" (title info)) (thumbnail_url info));
            OpSetInfo info].
    eexists. split; [reflexivity|]. simpl.
    split; [tauto|]. split; [tauto|]. split; [|reflexivity].
    intros H. repeat (destruct H as [H|H]; [discriminate H|]). exact H.
  - apply (complete_fetch_state ext g k url info Hk He Hv Hy).
  - intros key. rewrite drain_eq. cbn [size_cache set_after_queue].
    rewrite run_callbacks_size_cache.
    destruct (complete_fetch_state ext g k url info Hk He Hv Hy) as (_ & -> & _).
    apply lookup_empty.
Qed.

Lemma fetch_clears_cache_witness :
  size_cache refetch !! (urlA, true, "Medium") = Some 5242880%Z /\
  size_cache (drain ext0 (complete ext0 3 (Some infoB) refetch))
    !! (urlA, true, "Medium") = None.
Proof.
  split; [reflexivity|].
  destruct (fetch_clears_cache ext0 refetch 3 urlB infoB
              eq_refl eq_refl eq_refl eq_refl) as (_ & _ & H).
  apply H.
Defined.

(** ** A fetch that fails *)

(** C9 on the code: A is displayed and its size cached, the link is
    replaced by B, and B's fetch raises.  The status line reports the
    error and the selected quality and the cache are untouched, but the
    panel still shows A's title and [current_info] is still A's. *)
Lemma fetch_failure_keeps_old_panel :
  in_link_entry refetch = urlB /\
  threads refetch !! 3%nat = Some (TWaitLink urlB) /\
  video_title refetch = "A" /\
  video_title refetch_failed = "A" /\
  current_info refetch_failed = Some infoA /\
  link_status refetch_failed = "Error fetching link." /\
  quality_var refetch = "Medium" /\
  quality_var refetch_failed = "Medium" /\
  size_cache refetch !! (urlA, true, "Medium") = Some 5242880%Z /\
  size_cache refetch_failed !! (urlA, true, "Medium") = Some 5242880%Z.
Proof. vm_compute. repeat split; reflexivity. Qed.

(** The failure branch queues the error text and nothing else, while each of
    the three validation branches of the same method also queues the panel
    reset. *)
Lemma failure_branch_queues_no_reset (ext : Externals) (url : string) :
  PyStr.is_empty url = false ->
  validators_url ext url = true ->
  _is_youtube_url ext url = true ->
  ~ In (OpAfter 0 CbReset) (wait_link ext url None) /\
  In (OpAfter 0 (CbLinkStatus "Error fetching link.")) (wait_link ext url None).
Proof.
  intros He Hv Hy. rewrite (wait_link_failure ext url He Hv Hy). simpl. split.
  - intros H. repeat (destruct H as [H|H]; [discriminate H|]). exact H.
  - tauto.
Qed.

Lemma validation_branches_queue_reset (ext : Externals) (url : string)
    (fetched : option Info) :
  PyStr.is_empty url = true \/
  validators_url ext url = false \/
  _is_youtube_url ext url = false ->
  In (OpAfter 0 CbReset) (wait_link ext url fetched).
Proof.
  unfold wait_link. intros H.
  destruct (PyStr.is_empty url); [simpl; tauto|].
  destruct (validators_url ext url); [|simpl; tauto].
  destruct (_is_youtube_url ext url); [|simpl; tauto].
  destruct H as [H|[H|H]]; discriminate H.
Qed.

(** In general: a fetch that raises changes neither the stored metadata,
    the title, the selected quality nor the cache; it only queues status
    texts, the last of which is the error text that the status line shows
    once the queue is drained. *)
Lemma failed_fetch_state (ext : Externals) (g : GUI) (k : nat) (url : string) :
  threads g !! k = Some (TWaitLink url) ->
  PyStr.is_empty url = false ->
  validators_url ext url = true ->
  _is_youtube_url ext url = true ->
  let g1 := complete ext k None g in
  current_info g1 = current_info g /\
  video_title g1 = video_title g /\
  thumbnail g1 = thumbnail g /\
  quality_var g1 = quality_var g /\
  size_cache g1 = size_cache g /\
  after_queue g1 =
    (after_queue g ++
       [CbLinkStatus "Verifying link...";
        CbLinkStatus "Link correct...";
        CbLinkStatus "Error fetching link."])%list /\
  link_status (drain ext g1) = "Error fetching link.".
Proof.
  intros Hk He Hv Hy g1. subst g1.
  rewrite drain_eq.
  rewrite (complete_eq ext k None g (TWaitLink url) Hk) by discriminate.
  cbn [thread_ops]. rewrite (wait_link_failure ext url He Hv Hy).
  unfold run_ops. cbn [fold_left run_op].
  cbn [current_info video_title thumbnail quality_var size_cache after_queue
       link_status set_threads set_after_queue set_timers].
  rewrite <- !app_assoc. repeat split; try reflexivity.
  rewrite run_callbacks_app. unfold run_callbacks at 1.
  cbn [app fold_left run_callback]. reflexivity.
Qed.

(** * Further properties of the program *)

(** ** The callbacks and the queue *)

Lemma ufd_timers g : timers (update_filesize_display g) = timers g.
Proof. unfold_ufd. Qed.

Lemma ufd_photo g : photo (update_filesize_display g) = photo g.
Proof. unfold_ufd. Qed.

Lemma refresh_timers g : timers (_refresh_quality_menu g) = timers g.
Proof. apply (refresh_frame timers); auto using ufd_timers. Qed.

Lemma upd_timers ext t th g : timers (upd ext t th g) = timers g.
Proof. solve_upd th. Qed.

Lemma upd_is_mp3 ext t th g : is_mp3 (upd ext t th g) = is_mp3 g.
Proof. solve_upd th. Qed.

Lemma run_callback_timers ext cb g : timers (run_callback ext cb g) = timers g.
Proof.
  destruct cb; cbn [run_callback]; try reflexivity;
    auto using upd_timers, refresh_timers, ufd_timers.
Qed.

Lemma run_callback_is_mp3 ext cb g : is_mp3 (run_callback ext cb g) = is_mp3 g.
Proof.
  destruct cb; cbn [run_callback]; try reflexivity;
    auto using upd_is_mp3, refresh_is_mp3, ufd_is_mp3.
Qed.

Lemma run_callbacks_timers ext q : forall g,
  timers (run_callbacks ext q g) = timers g.
Proof.
  unfold run_callbacks. induction q as [|cb q IH]; intros g; simpl;
    [reflexivity | rewrite IH; apply run_callback_timers].
Qed.

Lemma run_callbacks_is_mp3 ext q : forall g,
  is_mp3 (run_callbacks ext q g) = is_mp3 g.
Proof.
  unfold run_callbacks. induction q as [|cb q IH]; intros g; simpl;
    [reflexivity | rewrite IH; apply run_callback_is_mp3].
Qed.

Lemma drain_split (ext : Externals) (g : GUI) (old new : list Callback) :
  after_queue g = (old ++ new)%list ->
  drain ext g
    = set_after_queue [] (run_callbacks ext new (run_callbacks ext old g)).
Proof. intros Hq. rewrite drain_eq, Hq, run_callbacks_app. reflexivity. Qed.

(** The part of the next theorem the later proofs use. *)
Lemma drain_keeps (ext : Externals) (g : GUI) :
  timers (drain ext g) = timers g /\
  size_cache (drain ext g) = size_cache g /\
  in_link_entry (drain ext g) = in_link_entry g.
Proof.
  rewrite drain_eq. cbn [timers size_cache in_link_entry set_after_queue].
  rewrite run_callbacks_timers, run_callbacks_size_cache,
    run_callbacks_in_link_entry.
  repeat split; reflexivity.
Qed.

(** X1.  The callbacks Tk runs never queue a callback, never start or move
    a timer, and never write the cache, the link entry or the output kind:
    whatever is waiting in the queue, running all of it empties the queue
    and leaves those four as they were. *)
Theorem drain_frame (ext : Externals) (g : GUI) :
  after_queue (drain ext g) = [] /\
  timers (drain ext g) = timers g /\
  size_cache (drain ext g) = size_cache g /\
  in_link_entry (drain ext g) = in_link_entry g /\
  is_mp3 (drain ext g) = is_mp3 g.
Proof.
  rewrite drain_eq. cbn [after_queue timers size_cache in_link_entry is_mp3
                         set_after_queue].
  rewrite run_callbacks_timers, run_callbacks_size_cache,
    run_callbacks_in_link_entry, run_callbacks_is_mp3.
  repeat split; reflexivity.
Qed.

(** ** Links that are rejected *)

Ltac start_complete Hk :=
  rewrite (complete_eq _ _ _ _ _ Hk) by discriminate;
  cbn [thread_ops].

(** X2.  For a link that is empty, malformed or not a YouTube address the
    thread never looks at what a fetch would return and stores nothing:
    when its statements have run and the queue is drained the panel is
    blank (no metadata, empty title, no thumbnail, empty size label), the
    cache and the link entry are as before, and the status line names the
    reason. *)
Theorem invalid_link_blanks_panel (ext : Externals) (g : GUI) (k : nat)
    (url : string) (fetched : option Info) :
  threads g !! k = Some (TWaitLink url) ->
  PyStr.is_empty url = true \/
  validators_url ext url = false \/
  _is_youtube_url ext url = false ->
  let g' := drain ext (complete ext k fetched g) in
  current_info g' = None /\
  video_title g' = "" /\
  thumbnail g' = None /\
  photo g' = None /\
  filesize_label g' = SizeBlank /\
  size_cache g' = size_cache g /\
  in_link_entry g' = in_link_entry g /\
  link_status g' =
    (if PyStr.is_empty url then "Waiting for link..."
     else if validators_url ext url then "Please enter a valid YouTube link."
     else "Please enter a valid link.").
Proof.
  intros Hk Hbad g'. subst g'.
  destruct (drain_keeps ext (complete ext k fetched g)) as (_ & -> & ->).
  assert (Hshape : exists q msg,
             wait_link ext url fetched
               = (map (OpAfter 0) q ++
                  OpAfter 0 (CbLinkStatus msg) ::
                  (if PyStr.is_empty url then []
                   else [OpAfter 3000 (CbLinkStatus "Waiting for link...")]) ++
                  [OpAfter 0 CbReset])%list /\
             msg = (if PyStr.is_empty url then "Waiting for link..."
                    else if validators_url ext url
                         then "Please enter a valid YouTube link."
                         else "Please enter a valid link.")).
  { unfold wait_link. destruct (PyStr.is_empty url).
    - exists [], "Waiting for link...". split; reflexivity.
    - destruct (validators_url ext url).
      + destruct (_is_youtube_url ext url).
        * destruct Hbad as [H|[H|H]]; discriminate H.
        * exists [CbLinkStatus "Verifying link..."],
            "Please enter a valid YouTube link.". split; reflexivity.
      + exists [CbLinkStatus "Verifying link..."], "Please enter a valid link.".
        split; reflexivity. }
  destruct Hshape as (q & msg & Hops & Hmsg). rewrite <- Hmsg. clear Hmsg.
  assert (Hstate :
            size_cache (complete ext k fetched g) = size_cache g /\
            in_link_entry (complete ext k fetched g) = in_link_entry g /\
            after_queue (complete ext k fetched g)
              = (after_queue g ++ q ++ [CbLinkStatus msg; CbReset])%list).
  { start_complete Hk. rewrite Hops. clear Hops Hbad.
    cbn [size_cache in_link_entry after_queue set_threads].
    unfold run_ops. rewrite !fold_left_app. cbn [fold_left run_op].
    assert (Hq : forall g0,
               size_cache (fold_left (fun g'' o => run_op o g'') (map (OpAfter 0) q) g0)
                 = size_cache g0 /\
               in_link_entry (fold_left (fun g'' o => run_op o g'') (map (OpAfter 0) q) g0)
                 = in_link_entry g0 /\
               after_queue (fold_left (fun g'' o => run_op o g'') (map (OpAfter 0) q) g0)
                 = (after_queue g0 ++ q)%list).
    { induction q as [|cb q IH]; intros g0; cbn [map fold_left].
      - rewrite app_nil_r. auto.
      - destruct (IH (run_op (OpAfter 0 cb) g0)) as (-> & -> & ->).
        cbn. rewrite <- app_assoc. auto. }
    destruct (PyStr.is_empty url); cbn [app fold_left run_op];
      cbn [size_cache in_link_entry after_queue set_after_queue set_timers];
      destruct (Hq g) as (-> & -> & ->); rewrite <- !app_assoc; auto. }
  destruct Hstate as (-> & -> & Hqueue).
  rewrite (drain_split ext _ (after_queue g ++ q) [CbLinkStatus msg; CbReset])
    by (rewrite Hqueue, <- app_assoc; reflexivity).
  unfold run_callbacks at 1. cbn [fold_left run_callback].
  cbn. repeat split; reflexivity.
Qed.

Lemma invalid_link_blanks_panel_witness :
  video_title cleared = "A" /\
  video_title (drain ext0 (complete ext0 3 None cleared)) = "" /\
  current_info (drain ext0 (complete ext0 3 None cleared)) = None /\
  link_status (drain ext0 (complete ext0 3 None cleared)) = "Waiting for link...".
Proof.
  destruct (invalid_link_blanks_panel ext0 cleared 3 "" None eq_refl
              (or_introl eq_refl)) as (Hci & Hvt & _ & _ & _ & _ & _ & Hls).
  split; [reflexivity|]. split; [exact Hvt|]. split; [exact Hci | exact Hls].
Defined.

(** ** The status timer of a fetch *)

(** X3.  A fetch of an accepted link always starts a one-second timer that
    writes 'Fetching link...'.  When the fetch is over and the queue is
    drained the status line reads 'Link fetched!' or 'Error fetching link.',
    the timer is still pending, and when it fires it puts 'Fetching link...'
    back on the status line. *)
Theorem fetching_timer_overrides_status (ext : Externals) (g : GUI) (k : nat)
    (url : string) (fetched : option Info) :
  threads g !! k = Some (TWaitLink url) ->
  PyStr.is_empty url = false ->
  validators_url ext url = true ->
  _is_youtube_url ext url = true ->
  let g' := drain ext (complete ext k fetched g) in
  link_status g'
    = (match fetched with
       | Some _ => "Link fetched!"
       | None => "Error fetching link."
       end) /\
  timers g' = (timers g ++ [(1000, CbLinkStatus "Fetching link...")])%list /\
  link_status (exec ext (EvTimer (length (timers g))) g') = "Fetching link...".
Proof.
  intros Hk He Hv Hy g'. subst g'.
  assert (Hstate :
            timers (complete ext k fetched g)
              = (timers g ++ [(1000, CbLinkStatus "Fetching link...")])%list /\
            exists q,
              after_queue (complete ext k fetched g)
                = (q ++ [CbLinkStatus
                           (match fetched with
                            | Some _ => "Link fetched!"
                            | None => "Error fetching link."
                            end)])%list).
  { start_complete Hk. destruct fetched as [info|].
    - rewrite (wait_link_success ext url info He Hv Hy). split; [reflexivity|].
      exists (after_queue g ++
                [CbLinkStatus "Verifying link..."; CbLinkStatus "Link correct...";
                 CbUpd (default "" (title info)) (thumbnail_url info);
                 CbRefreshQuality; CbUpdateFilesize])%list.
      cbn. rewrite <- !app_assoc. reflexivity.
    - rewrite (wait_link_failure ext url He Hv Hy). split; [reflexivity|].
      exists (after_queue g ++
                [CbLinkStatus "Verifying link..."; CbLinkStatus "Link correct..."])%list.
      cbn. rewrite <- !app_assoc. reflexivity. }
  destruct Hstate as (Htimers & q & Hqueue).
  assert (Htimers' : timers (drain ext (complete ext k fetched g))
                     = (timers g ++ [(1000, CbLinkStatus "Fetching link...")])%list).
  { destruct (drain_keeps ext (complete ext k fetched g)) as (-> & _).
    exact Htimers. }
  split; [|split; [exact Htimers'|]].
  - rewrite (drain_split ext _ q _ Hqueue).
    unfold run_callbacks at 1. cbn [fold_left run_callback]. reflexivity.
  - unfold exec. rewrite Htimers'.
    rewrite lookup_app_r by lia. rewrite Nat.sub_diag. cbn [lookup list_lookup].
    reflexivity.
Qed.

Lemma fetching_timer_overrides_status_witness :
  link_status (drain ext0 (complete ext0 3 (Some infoB) refetch)) = "Link fetched!" /\
  link_status
    (exec ext0 (EvTimer (length (timers refetch)))
       (drain ext0 (complete ext0 3 (Some infoB) refetch))) = "Fetching link...".
Proof.
  destruct (fetching_timer_overrides_status ext0 refetch 3 urlB (Some infoB)
              eq_refl eq_refl eq_refl eq_refl) as (H1 & _ & H2).
  split; [exact H1 | exact H2].
Defined.

(** ** Size estimates: totals, cache round trip, blank links *)

Lemma fold_total_acc (parts : list Part) : forall acc : Z,
  fold_left (fun total f => (total + part_size f)%Z) parts acc
    = (acc + sum_sizes parts)%Z.
Proof.
  unfold sum_sizes. induction parts as [|f parts IH]; intros acc; simpl.
  - lia.
  - rewrite IH. lia.
Qed.

Lemma sum_sizes_perm (ps ps' : list Part) :
  Permutation ps ps' -> sum_sizes ps = sum_sizes ps'.
Proof.
  unfold sum_sizes. induction 1; simpl; lia.
Qed.

Lemma sum_sizes_bounds (ps : list Part) :
  Forall (fun f => (0 <= part_size f)%Z) ps ->
  (0 <= sum_sizes ps)%Z /\ Forall (fun f => (part_size f <= sum_sizes ps)%Z) ps.
Proof.
  unfold sum_sizes. induction 1 as [|f ps Hf _ [IH0 IHle]]; simpl.
  - split; [lia | constructor].
  - split; [lia|]. constructor; [lia|].
    eapply Forall_impl; [exact IHle|]. simpl. intros; lia.
Qed.

(** X4.  When the answer of a size query lists the requested formats, the
    estimate is the sum of what the parts report, a part without a size
    counting as zero, and the sizes given for the whole file are not used.
    The estimate does not depend on the order of the parts, and when no
    part reports a negative size it is non-negative and at least as large
    as every part. *)
Theorem estimate_total_sums_parts (info : Info) (parts : list Part) :
  requested_formats info = Some parts ->
  estimate_total info = sum_sizes parts /\
  (forall f, part_filesize f = None -> part_filesize_approx f = None ->
             part_size f = 0%Z) /\
  (forall (info' : Info) (parts' : list Part),
     requested_formats info' = Some parts' -> Permutation parts parts' ->
     estimate_total info' = estimate_total info) /\
  (Forall (fun f => (0 <= part_size f)%Z) parts ->
   (0 <= estimate_total info)%Z /\
   Forall (fun f => (part_size f <= estimate_total info)%Z) parts).
Proof.
  intros Hp.
  assert (Htot : forall i ps, requested_formats i = Some ps ->
                              estimate_total i = sum_sizes ps).
  { intros i ps Hi. unfold estimate_total. rewrite Hi, fold_total_acc. lia. }
  split; [apply Htot, Hp|]. split; [|split].
  - intros f H1 H2. unfold part_size. rewrite H1, H2. reflexivity.
  - intros info' parts' Hp' Hperm.
    rewrite (Htot _ _ Hp), (Htot _ _ Hp'). symmetry. apply sum_sizes_perm, Hperm.
  - intros Hnn. rewrite (Htot _ _ Hp). apply sum_sizes_bounds, Hnn.
Qed.

Lemma estimate_total_sums_parts_witness :
  estimate_total two_parts = 7340032%Z /\
  estimate_total two_parts_swapped = estimate_total two_parts.
Proof.
  destruct (estimate_total_sums_parts two_parts _ eq_refl) as (Hsum & _ & Hperm & _).
  split; [rewrite Hsum; reflexivity|].
  apply (Hperm two_parts_swapped _ eq_refl). apply perm_swap.
Defined.

(** X5.  A size estimate that has completed is found by the next size
    request for the same link, kind and quality: the label shows the total
    and no thread is started.  The completion changes no other cache
    entry. *)
Theorem estimate_then_request_hits (ext : Externals) (g : GUI) (k : nat)
    (url : string) (mp3 : bool) (quality : string) (info : Info) :
  threads g !! k = Some (TEstimate url mp3 quality) ->
  PyStr.strip (in_link_entry g) = url ->
  is_mp3 g = mp3 ->
  quality_var g = quality ->
  PyStr.is_empty url = false ->
  let g1 := complete ext k (Some info) g in
  filesize_label (update_filesize_display g1)
    = SizeEstimated (estimate_total info) /\
  threads (update_filesize_display g1) = threads g1 /\
  (forall key, key <> (url, mp3, quality) ->
     size_cache g1 !! key = size_cache g !! key).
Proof.
  intros Hk Hurl Hmp3 Hq He g1. subst g1. start_complete Hk.
  unfold _estimate_and_update_size, run_ops. cbn [fold_left run_op].
  unfold update_filesize_display.
  cbn [in_link_entry is_mp3 quality_var size_cache set_threads set_after_queue
       set_size_cache].
  rewrite Hurl, Hmp3, Hq, He, lookup_insert_eq.
  repeat split. intros key Hne. apply lookup_insert_ne. congruence.
Qed.

Lemma estimate_then_request_hits_witness :
  filesize_label sel_fetched = SizeEstimating /\
  filesize_label
    (update_filesize_display
       (complete ext0 1 (Some (est_info 5242880)) sel_fetched))
    = SizeEstimated 5242880.
Proof.
  split; [reflexivity|].
  apply (estimate_then_request_hits ext0 sel_fetched 1 urlA true "Medium"
           (est_info 5242880) eq_refl eq_refl eq_refl eq_refl eq_refl).
Defined.

Lemma strip_blank (s : string) :
  PyStr.all_chars PyStr.is_space s = true -> PyStr.strip s = "".
Proof.
  unfold PyStr.strip. induction s as [|c s IH]; simpl.
  - reflexivity.
  - intros H. apply andb_prop in H as [Hc Hs]. rewrite Hc. apply IH, Hs.
Qed.

(** X6.  When the link entry is empty or holds only white space, a size
    request blanks the size label and does nothing else: it does not look
    into the cache and starts no thread. *)
Theorem blank_link_requests_nothing (g : GUI) :
  PyStr.all_chars PyStr.is_space (in_link_entry g) = true ->
  update_filesize_display g = set_filesize_label SizeBlank g.
Proof.
  intros Hblank. unfold update_filesize_display.
  rewrite (strip_blank _ Hblank). reflexivity.
Qed.

Lemma blank_link_requests_nothing_witness :
  update_filesize_display (set_in_link_entry "   " init)
    = set_filesize_label SizeBlank (set_in_link_entry "   " init).
Proof.
  exact (blank_link_requests_nothing (set_in_link_entry "   " init) eq_refl).
Defined.

(** ** More on the gating *)

Lemma refresh_in_trace_menu g info fs :
  current_info g = Some info -> formats info = Some fs ->
  quality_menu (refresh_in_trace g) = gate_menu (is_mp3 g) fs.
Proof.
  intros Hi Hf. unfold refresh_in_trace, refresh_body.
  rewrite Hi, (formats_not_empty _ _ Hf), Hf, ufd_quality_menu. simpl.
  destruct (needs_fallback _ _); [destruct (first_normal _)|]; reflexivity.
Qed.

Lemma refresh_in_trace_quality_var g info fs :
  current_info g = Some info -> formats info = Some fs ->
  quality_var (refresh_in_trace g) =
    if needs_fallback (quality_var g) (gate_menu (is_mp3 g) fs)
    then default (quality_var g) (first_normal (gate_menu (is_mp3 g) fs))
    else quality_var g.
Proof.
  intros Hi Hf. unfold refresh_in_trace, refresh_body.
  rewrite Hi, (formats_not_empty _ _ Hf), Hf, ufd_quality_var. simpl.
  destruct (needs_fallback _ _); [destruct (first_normal _)|]; reflexivity.
Qed.

Lemma head_supported_in mp3 fs lbl :
  head (supported mp3 fs) = Some lbl -> In lbl (supported mp3 fs).
Proof. destruct (supported mp3 fs); simpl; [discriminate|]. intros [= ->]. auto. Qed.

(** The selection either form of the refresh leaves, in terms of the
    supported set. *)
Lemma selection_after_refresh g info fs :
  current_info g = Some info -> formats info = Some fs ->
  quality_var (refresh_in_trace g) = quality_var (_refresh_quality_menu g) /\
  (In (quality_var g) (supported (is_mp3 g) fs) ->
     quality_var (_refresh_quality_menu g) = quality_var g) /\
  (~ In (quality_var g) (supported (is_mp3 g) fs) ->
     quality_var (_refresh_quality_menu g)
       = hd (quality_var g) (supported (is_mp3 g) fs)).
Proof.
  intros Hi Hf.
  rewrite (refresh_in_trace_quality_var g info fs Hi Hf),
    (refresh_quality_var g info fs Hi Hf).
  split; [reflexivity|]. rewrite first_normal_gate. split; intros Hin.
  - destruct (needs_fallback _ _) eqn:Hn; [|reflexivity].
    apply needs_fallback_gate in Hn. contradiction.
  - apply needs_fallback_gate in Hin. rewrite Hin.
    destruct (supported _ _); reflexivity.
Qed.

(** X7.  After a refresh with metadata the selected quality is an enabled
    entry of the menu whenever the menu has one; a selection that was
    supported is kept; and the refresh a user's pick triggers ends with the
    same selection and the same menu as the one queued by a fetch. *)
Theorem refresh_selects_supported (g : GUI) (info : Info) (fs : list Format) :
  current_info g = Some info ->
  formats info = Some fs ->
  let g' := _refresh_quality_menu g in
  (In (quality_var g) (supported (is_mp3 g) fs) -> quality_var g' = quality_var g) /\
  (supported (is_mp3 g) fs <> [] ->
     In (quality_var g') (enabled_labels (quality_menu g'))) /\
  quality_var (refresh_in_trace g) = quality_var g' /\
  quality_menu (refresh_in_trace g) = quality_menu g'.
Proof.
  intros Hi Hf g'. subst g'.
  destruct (selection_after_refresh g info fs Hi Hf) as (Hsame & Hkeep & Hmove).
  split; [exact Hkeep|]. split; [|split; [exact Hsame|]].
  - intros Hne. rewrite (refresh_menu g info fs Hi Hf), enabled_labels_gate.
    destruct (in_dec string_dec (quality_var g) (supported (is_mp3 g) fs)) as [Hin|Hout].
    + rewrite (Hkeep Hin). exact Hin.
    + rewrite (Hmove Hout). destruct (supported (is_mp3 g) fs); [congruence|].
      left. reflexivity.
  - rewrite (refresh_in_trace_menu g info fs Hi Hf), (refresh_menu g info fs Hi Hf).
    reflexivity.
Qed.

Lemma refresh_selects_supported_witness :
  In (quality_var (_refresh_quality_menu g_high200))
     (enabled_labels (quality_menu (_refresh_quality_menu g_high200))).
Proof.
  destruct (refresh_selects_supported g_high200 info200 fs200 eq_refl eq_refl)
    as (_ & H & _).
  apply H. vm_compute. discriminate.
Defined.

Lemma max_or_zero_app_nonneg (l extra : list Z) :
  Forall (fun a => (0 <= a)%Z) extra ->
  (max_or_zero l <= max_or_zero (l ++ extra))%Z.
Proof.
  intros Hnn.
  destruct (max_or_zero_spec l) as [Hl0 Hl1].
  destruct (max_or_zero_spec (l ++ extra)%list) as [Ha0 Ha1].
  destruct l as [|x l].
  - rewrite (Hl0 eq_refl). simpl. destruct extra as [|y extra]; [reflexivity|].
    destruct (Ha1 ltac:(discriminate)) as [Hin _].
    simpl in Hin. rewrite Forall_forall in Hnn. apply Hnn.
    apply list_elem_of_In. exact Hin.
  - destruct (Hl1 ltac:(discriminate)) as [Hin _].
    destruct (Ha1 ltac:(discriminate)) as [_ Hall].
    rewrite Forall_forall in Hall. apply Hall.
    apply list_elem_of_In, in_or_app. left. exact Hin.
Qed.

Lemma cap_of_app_nonneg mp3 fs extra :
  Forall (fun f => (0 <= or_else (abr f) 0)%Z /\ (0 <= or_else (height f) 0)%Z) extra ->
  (cap_of mp3 fs <= cap_of mp3 (fs ++ extra))%Z.
Proof.
  intros Hnn. unfold cap_of, max_abr, max_h, abr_list, heights.
  pose proof (proj1 (List.Forall_forall _ _) Hnn) as Hnn'.
  destruct mp3; rewrite List.filter_app, map_app; apply max_or_zero_app_nonneg;
    apply List.Forall_forall; intros a Ha;
    apply in_map_iff in Ha as (f & <- & Hf);
    apply List.filter_In in Hf as [Hf _];
    apply Hnn' in Hf; tauto.
Qed.

Lemma supported_monotone mp3 fs fs' :
  (cap_of mp3 fs <= cap_of mp3 fs')%Z ->
  exists more : list string, supported mp3 fs' = (supported mp3 fs ++ more)%list.
Proof.
  unfold supported. generalize (cap_of mp3 fs) (cap_of mp3 fs'). intros c c' Hle.
  destruct mp3; simpl;
    repeat match goal with
           | |- context [(?a <=? ?b)%Z] => destruct (Z.leb_spec a b); simpl
           end; try lia; eexists; reflexivity.
Qed.

(** X8.  The supported options are always the lowest ones: the supported
    set is an initial piece of the ascending option list.  It only grows
    with the capability, and a format list extended by formats without
    negative bitrates or heights supports every option it supported
    before. *)
Theorem supported_is_prefix_and_monotone (mp3 : bool) (fs : list Format) :
  (exists rest, labels_of mp3 = (supported mp3 fs ++ rest)%list) /\
  (forall fs', (cap_of mp3 fs <= cap_of mp3 fs')%Z ->
     exists more, supported mp3 fs' = (supported mp3 fs ++ more)%list) /\
  (forall extra,
     Forall (fun f => (0 <= or_else (abr f) 0)%Z /\ (0 <= or_else (height f) 0)%Z)
            extra ->
     exists more, supported mp3 (fs ++ extra) = (supported mp3 fs ++ more)%list).
Proof.
  split; [|split].
  - unfold labels_of, supported. generalize (cap_of mp3 fs). intros c.
    destruct mp3; simpl;
      repeat match goal with
             | |- context [(?a <=? ?b)%Z] => destruct (Z.leb_spec a b); simpl
             end; try lia; eexists; reflexivity.
  - intros fs'. apply supported_monotone.
  - intros extra Hnn. apply supported_monotone, cap_of_app_nonneg, Hnn.
Qed.

Lemma supported_is_prefix_and_monotone_witness :
  supported true fs50 = [] /\
  exists more, supported true (fs50 ++ fs200) = (supported true fs50 ++ more)%list.
Proof.
  split; [reflexivity|].
  destruct (supported_is_prefix_and_monotone true fs50) as (_ & _ & H).
  apply H. repeat constructor; discriminate.
Defined.

Lemma refresh_in_trace_current_info g :
  current_info (refresh_in_trace g) = current_info g.
Proof. apply (refresh_frame current_info); auto using ufd_current_info. Qed.

Lemma refresh_in_trace_is_mp3 g : is_mp3 (refresh_in_trace g) = is_mp3 g.
Proof. apply (refresh_frame is_mp3); auto using ufd_is_mp3. Qed.

Lemma refresh_without_info (w : string -> GUI -> GUI) (g : GUI) :
  current_info g = None -> refresh_body w g = g.
Proof. intros H. unfold refresh_body. rewrite H. reflexivity. Qed.

(** X9.  Switching the output kind discards the selected quality: the
    selection becomes the middle option of the new kind ('Medium' or
    '1080p'), or, with metadata that does not support the middle option,
    the lowest supported one.  Without metadata every entry of the new menu
    is enabled and no size is requested; with metadata the menu is the
    gated one. *)
Theorem toggle_resets_quality (ext : Externals) (g : GUI) (mp3 : bool) :
  let g' := exec ext (EvToggle mp3) g in
  let d := default_label (opts_of mp3) in
  is_mp3 g' = mp3 /\
  d = (if mp3 then "Medium" else "1080p") /\
  (current_info g = None ->
     quality_var g' = d /\
     enabled_labels (quality_menu g') = labels_of mp3 /\
     filesize_label g' = filesize_label g /\
     threads g' = threads g) /\
  (forall info fs,
     current_info g = Some info -> formats info = Some fs ->
     quality_menu g' = gate_menu mp3 fs /\
     (In d (supported mp3 fs) -> quality_var g' = d) /\
     (~ In d (supported mp3 fs) -> quality_var g' = hd d (supported mp3 fs))).
Proof.
  intros g' d. subst g' d. cbn [exec]. unfold update_quality_options.
  cbn [is_mp3 set_is_mp3].
  replace (if mp3 then audio_opts else video_opts) with (opts_of mp3) by reflexivity.
  set (d := default_label (opts_of mp3)).
  set (g2 := set_quality_menu _ (set_quality_label _ (set_is_mp3 mp3 g))).
  assert (Hci2 : current_info (set_quality_var d g2) = current_info g) by reflexivity.
  assert (Hm2 : is_mp3 (set_quality_var d g2) = mp3) by reflexivity.
  split; [|split; [destruct mp3; reflexivity|split]].
  - rewrite refresh_is_mp3. unfold quality_var_set.
    rewrite refresh_in_trace_is_mp3. exact Hm2.
  - intros Hnone. unfold quality_var_set, refresh_in_trace, _refresh_quality_menu.
    rewrite (refresh_without_info set_quality_var (set_quality_var d g2))
      by (rewrite Hci2; exact Hnone).
    rewrite (refresh_without_info quality_var_set (set_quality_var d g2))
      by (rewrite Hci2; exact Hnone).
    subst g2. cbn. repeat split. destruct mp3; reflexivity.
  - intros info fs Hi Hf. unfold quality_var_set.
    set (g3 := refresh_in_trace (set_quality_var d g2)).
    assert (Hci3 : current_info g3 = Some info)
      by (unfold g3; rewrite refresh_in_trace_current_info, Hci2; exact Hi).
    assert (Hm3 : is_mp3 g3 = mp3)
      by (unfold g3; rewrite refresh_in_trace_is_mp3; exact Hm2).
    assert (Hci2' : current_info (set_quality_var d g2) = Some info)
      by (rewrite Hci2; exact Hi).
    destruct (selection_after_refresh (set_quality_var d g2) info fs Hci2' Hf)
      as (Hsame & Hkeep & Hmove).
    rewrite Hm2 in Hkeep, Hmove. cbn [quality_var set_quality_var] in Hkeep, Hmove.
    fold g3 in Hsame.
    destruct (selection_after_refresh g3 info fs Hci3 Hf) as (_ & Hkeep3 & Hmove3).
    rewrite Hm3 in Hkeep3, Hmove3.
    split; [rewrite (refresh_menu g3 info fs Hci3 Hf), Hm3; reflexivity|].
    split; intros Hd.
    + assert (Hq3 : quality_var g3 = d) by (rewrite Hsame; apply Hkeep, Hd).
      rewrite Hkeep3; rewrite Hq3; [reflexivity | exact Hd].
    + assert (Hq3 : quality_var g3 = hd d (supported mp3 fs))
        by (rewrite Hsame; apply Hmove, Hd).
      destruct (supported mp3 fs) as [|l sup] eqn:Hsup.
      * simpl in Hq3. rewrite Hmove3; rewrite Hq3; [reflexivity | exact Hd].
      * simpl in Hq3. simpl. rewrite Hkeep3; rewrite Hq3; [reflexivity | left; reflexivity].
Qed.

Lemma toggle_resets_quality_witness :
  quality_var (exec ext0 (EvToggle false) sel_low) = "1080p" /\
  quality_var (exec ext0 (EvToggle true) g_high200) = "Medium" /\
  quality_var (exec ext0 (EvToggle true) g_high50) = "Medium" /\
  quality_var (exec ext0 (EvToggle false) (set_current_info (Some info720) init))
    = "480p".
Proof.
  destruct (toggle_resets_quality ext0 sel_low false) as (_ & _ & _ & H1).
  destruct (toggle_resets_quality ext0 g_high200 true) as (_ & _ & _ & H2).
  destruct (toggle_resets_quality ext0 g_high50 true) as (_ & _ & _ & H3).
  destruct (toggle_resets_quality ext0 (set_current_info (Some info720) init) false)
    as (_ & _ & _ & H4).
  destruct (H1 infoA fs_full eq_refl eq_refl) as (_ & H1' & _).
  destruct (H2 info200 fs200 eq_refl eq_refl) as (_ & H2' & _).
  destruct (H3 info50 fs50 eq_refl eq_refl) as (_ & _ & H3').
  destruct (H4 info720 fs720 eq_refl eq_refl) as (_ & _ & H4').
  split; [apply H1'; vm_compute; tauto|].
  split; [apply H2'; vm_compute; tauto|].
  split; [apply H3'; vm_compute; tauto|].
  apply H4'. vm_compute. intuition discriminate.
Defined.





(** ** The size queries a successful fetch starts *)

Lemma ufd_miss (g : GUI) :
  size_cache g = ∅ ->
  PyStr.is_empty (PyStr.strip (in_link_entry g)) = false ->
  update_filesize_display g
    = spawn (TEstimate (PyStr.strip (in_link_entry g)) (is_mp3 g) (quality_var g))
        (set_filesize_label SizeEstimating g).
Proof.
  intros Hc He. unfold update_filesize_display. rewrite He, Hc, lookup_empty.
  reflexivity.
Qed.

(** With metadata, an empty cache and a link present: the threads and the
    label either form of the refresh leaves. *)
Lemma refresh_in_trace_miss (g : GUI) (info : Info) (fs : list Format) :
  current_info g = Some info -> formats info = Some fs ->
  size_cache g = ∅ ->
  PyStr.is_empty (PyStr.strip (in_link_entry g)) = false ->
  threads (refresh_in_trace g)
    = (threads g ++
         [TEstimate (PyStr.strip (in_link_entry g)) (is_mp3 g)
            (quality_var (refresh_in_trace g))])%list /\
  filesize_label (refresh_in_trace g) = SizeEstimating.
Proof.
  intros Hi Hf Hc He. unfold refresh_in_trace, refresh_body.
  rewrite Hi, (formats_not_empty _ _ Hf), Hf.
  cbn [is_mp3 quality_var quality_menu set_quality_menu].
  destruct (needs_fallback _ _); [destruct (first_normal _)|];
    rewrite ufd_miss by assumption; split; reflexivity.
Qed.

Lemma refresh_miss (g : GUI) (info : Info) (fs : list Format) :
  current_info g = Some info -> formats info = Some fs ->
  size_cache g = ∅ ->
  PyStr.is_empty (PyStr.strip (in_link_entry g)) = false ->
  let u := PyStr.strip (in_link_entry g) in
  let sup := supported (is_mp3 g) fs in
  filesize_label (_refresh_quality_menu g) = SizeEstimating /\
  (In (quality_var g) sup \/ sup = [] ->
     threads (_refresh_quality_menu g)
       = (threads g ++ [TEstimate u (is_mp3 g) (quality_var g)])%list) /\
  (~ In (quality_var g) sup -> sup <> [] ->
     threads (_refresh_quality_menu g)
       = (threads g ++ [TEstimate u (is_mp3 g) (hd (quality_var g) sup);
                        TEstimate u (is_mp3 g) (hd (quality_var g) sup)])%list).
Proof.
  intros Hi Hf Hc He u sup. subst u sup.
  assert (Hunf : _refresh_quality_menu g
                 = update_filesize_display
                     (if needs_fallback (quality_var g) (gate_menu (is_mp3 g) fs)
                      then match head (supported (is_mp3 g) fs) with
                           | Some lbl =>
                               quality_var_set lbl
                                 (set_quality_menu (gate_menu (is_mp3 g) fs)
                                    (set_quality_menu [] g))
                           | None =>
                               set_quality_menu (gate_menu (is_mp3 g) fs)
                                 (set_quality_menu [] g)
                           end
                      else set_quality_menu (gate_menu (is_mp3 g) fs)
                             (set_quality_menu [] g))).
  { unfold _refresh_quality_menu, refresh_body.
    rewrite Hi, (formats_not_empty _ _ Hf), Hf.
    cbn [is_mp3 quality_var quality_menu set_quality_menu].
    rewrite first_normal_gate. reflexivity. }
  rewrite Hunf. clear Hunf.
  destruct (needs_fallback (quality_var g) (gate_menu (is_mp3 g) fs)) eqn:Hn.
  - apply needs_fallback_gate in Hn.
    destruct (supported (is_mp3 g) fs) as [|l sup] eqn:Hsup; cbn [head].
    + rewrite ufd_miss by assumption. split; [reflexivity|]. split.
      * intros _. reflexivity.
      * intros _ Hne. congruence.
    + unfold quality_var_set.
      set (g2 := set_quality_var l (set_quality_menu _ (set_quality_menu [] g))).
      assert (Hq : quality_var (refresh_in_trace g2) = l).
      { rewrite (refresh_in_trace_quality_var g2 info fs Hi Hf).
        cbn [quality_var is_mp3 g2 set_quality_var set_quality_menu].
        rewrite (first_normal_selected (is_mp3 g) fs l); [reflexivity|].
        rewrite first_normal_gate, Hsup. reflexivity. }
      destruct (refresh_in_trace_miss g2 info fs Hi Hf Hc He) as (Hth & _).
      rewrite Hq in Hth. cbn [threads in_link_entry is_mp3 g2 set_quality_var
                              set_quality_menu] in Hth.
      assert (Hc3 : size_cache (refresh_in_trace g2) = ∅).
      { destruct (refresh_frame size_cache
                    ltac:(reflexivity) ltac:(reflexivity) ufd_size_cache g2) as [-> _].
        exact Hc. }
      assert (He3 : PyStr.is_empty (PyStr.strip (in_link_entry (refresh_in_trace g2)))
                    = false).
      { destruct (refresh_frame in_link_entry
                    ltac:(reflexivity) ltac:(reflexivity) ufd_in_link_entry g2) as [-> _].
        exact He. }
      rewrite (ufd_miss _ Hc3 He3). unfold spawn.
      cbn [threads filesize_label set_threads set_filesize_label].
      destruct (refresh_frame in_link_entry
                  ltac:(reflexivity) ltac:(reflexivity) ufd_in_link_entry g2) as [-> _].
      rewrite refresh_in_trace_is_mp3, Hq, Hth.
      cbn [in_link_entry is_mp3 g2 set_quality_var set_quality_menu hd].
      rewrite <- app_assoc. split; [reflexivity|]. split.
      * intros [Hin|Hnil]; [contradiction | discriminate].
      * intros _ _. reflexivity.
  - rewrite ufd_miss by assumption. split; [reflexivity|]. split.
    + intros _. reflexivity.
    + intros Hout. apply needs_fallback_gate in Hout. congruence.
Qed.

Lemma upd_threads ext t th g : threads (upd ext t th g) = threads g.
Proof. solve_upd th. Qed.

Lemma upd_quality_var ext t th g : quality_var (upd ext t th g) = quality_var g.
Proof. solve_upd th. Qed.

(** X11.  A successful fetch that finds the queue empty and a link in the
    entry always ends with the placeholder on the size label and with more
    than one size query running for one and the same key, the entry's text
    with the kind and the quality then selected: two queries when the
    selection did not have to move (the queued refresh asks, then the queued
    size update asks again), three when the refresh moved it to the lowest
    supported option (the write trace runs the refresh, and so the request,
    once more). *)
Theorem fetch_starts_size_queries (ext : Externals) (g : GUI) (k : nat)
    (url : string) (info : Info) (fs : list Format) :
  threads g !! k = Some (TWaitLink url) ->
  PyStr.is_empty url = false ->
  validators_url ext url = true ->
  _is_youtube_url ext url = true ->
  formats info = Some fs ->
  after_queue g = [] ->
  PyStr.is_empty (PyStr.strip (in_link_entry g)) = false ->
  let g' := drain ext (complete ext k (Some info) g) in
  let u := PyStr.strip (in_link_entry g) in
  let sup := supported (is_mp3 g) fs in
  let base := <[k := TRunning []]> (threads g) in
  filesize_label g' = SizeEstimating /\
  (In (quality_var g) sup \/ sup = [] ->
     threads g'
       = (base ++ [TEstimate u (is_mp3 g) (quality_var g);
                   TEstimate u (is_mp3 g) (quality_var g)])%list) /\
  (~ In (quality_var g) sup -> sup <> [] ->
     threads g'
       = (base ++ [TEstimate u (is_mp3 g) (hd (quality_var g) sup);
                   TEstimate u (is_mp3 g) (hd (quality_var g) sup);
                   TEstimate u (is_mp3 g) (hd (quality_var g) sup)])%list).
Proof.
  intros Hk He Hv Hy Hf Hq0 Hlink g' u sup base. subst g' u sup base.
  destruct (complete_fetch_state ext g k url info Hk He Hv Hy)
    as (Hci & Hsc & Hle & Hqueue).
  assert (Hmore : is_mp3 (complete ext k (Some info) g) = is_mp3 g /\
                  quality_var (complete ext k (Some info) g) = quality_var g /\
                  threads (complete ext k (Some info) g)
                    = <[k := TRunning []]> (threads g)).
  { start_complete Hk. rewrite (wait_link_success ext url info He Hv Hy).
    repeat split; reflexivity. }
  destruct Hmore as (Hm & Hqv & Hth).
  rewrite Hq0 in Hqueue. cbn [app] in Hqueue.
  rewrite drain_eq, Hqueue. unfold run_callbacks. cbn [fold_left run_callback].
  cbn [filesize_label threads set_after_queue set_link_status].
  set (gU := upd ext _ _ _).
  assert (HciU : current_info gU = Some info)
    by (unfold gU; rewrite upd_current_info; exact Hci).
  assert (HscU : size_cache gU = ∅)
    by (unfold gU; rewrite upd_size_cache; exact Hsc).
  assert (HleU : in_link_entry gU = in_link_entry g)
    by (unfold gU; rewrite upd_in_link_entry; exact Hle).
  assert (HmU : is_mp3 gU = is_mp3 g)
    by (unfold gU; rewrite upd_is_mp3; exact Hm).
  assert (HqvU : quality_var gU = quality_var g)
    by (unfold gU; rewrite upd_quality_var; exact Hqv).
  assert (HthU : threads gU = <[k := TRunning []]> (threads g))
    by (unfold gU; rewrite upd_threads; exact Hth).
  assert (HlinkU : PyStr.is_empty (PyStr.strip (in_link_entry gU)) = false)
    by (rewrite HleU; exact Hlink).
  destruct (refresh_miss gU info fs HciU Hf HscU HlinkU) as (_ & Hstay & Hmove).
  destruct (selection_after_refresh gU info fs HciU Hf) as (_ & Hkeep & Hfall).
  rewrite HleU, HmU, HqvU, HthU in Hstay, Hmove. rewrite HmU, HqvU in Hkeep, Hfall.
  set (gR := _refresh_quality_menu gU) in *.
  assert (HscR : size_cache gR = ∅)
    by (unfold gR; rewrite refresh_size_cache; exact HscU).
  assert (HlinkR : PyStr.is_empty (PyStr.strip (in_link_entry gR)) = false)
    by (unfold gR; rewrite refresh_in_link_entry; exact HlinkU).
  rewrite (ufd_miss gR HscR HlinkR). unfold spawn.
  cbn [filesize_label threads set_threads set_filesize_label].
  assert (HleR : in_link_entry gR = in_link_entry g)
    by (unfold gR; rewrite refresh_in_link_entry; exact HleU).
  assert (HmR : is_mp3 gR = is_mp3 g)
    by (unfold gR; rewrite refresh_is_mp3; exact HmU).
  rewrite HleR, HmR.
  split; [reflexivity|]. split.
  - intros Hcase. rewrite (Hstay Hcase), <- app_assoc. cbn [app].
    assert (Hsel : quality_var gR = quality_var g).
    { destruct (in_dec string_dec (quality_var g) (supported (is_mp3 g) fs))
        as [Hin|Hout]; [apply Hkeep, Hin|].
      rewrite (Hfall Hout). destruct Hcase as [Hin|Hnil]; [contradiction|].
      rewrite Hnil. reflexivity. }
    rewrite Hsel. reflexivity.
  - intros Hout Hne. rewrite (Hmove Hout Hne), (Hfall Hout), <- app_assoc.
    reflexivity.
Qed.

Lemma fetch_starts_size_queries_witness :
  threads (drain ext0 (complete ext0 0 (Some infoA) (exec ext0 (EvEdit urlA) init)))
    = [TRunning []; TEstimate urlA true "Medium"; TEstimate urlA true "Medium"] /\
  threads (drain ext0 (complete ext0 0 (Some info150) (exec ext0 (EvEdit urlA) init)))
    = [TRunning []; TEstimate urlA true "Low"; TEstimate urlA true "Low";
       TEstimate urlA true "Low"].
Proof.
  destruct (fetch_starts_size_queries ext0 (exec ext0 (EvEdit urlA) init) 0 urlA
              infoA fs_full eq_refl eq_refl eq_refl eq_refl eq_refl eq_refl eq_refl)
    as (_ & H2 & _).
  destruct (fetch_starts_size_queries ext0 (exec ext0 (EvEdit urlA) init) 0 urlA
              info150 fs150 eq_refl eq_refl eq_refl eq_refl eq_refl eq_refl eq_refl)
    as (_ & _ & H3).
  split.
  - etransitivity; [apply H2; left; vm_compute; tauto|].
    vm_compute. reflexivity.
  - etransitivity.
    + apply H3; vm_compute; [intros [H|H]; [discriminate H | exact H] | discriminate].
    + vm_compute. reflexivity.
Defined.

(** ** What every reachable state satisfies *)

Lemma wf_frame (g g' : GUI) :
  is_mp3 g' = is_mp3 g ->
  quality_var g' = quality_var g ->
  quality_menu g' = quality_menu g ->
  threads g' = threads g ->
  size_cache g' = size_cache g ->
  well_formed g -> well_formed g'.
Proof.
  unfold well_formed, kind_consistent.
  intros H1 H2 H3 H4 H5 (Hk & Ht & Hc).
  rewrite H1, H2, H3, H4. split; [exact Hk|]. split; [exact Ht|].
  intros key total. rewrite H5. apply Hc.
Qed.

Lemma supported_prefix mp3 fs :
  exists rest, labels_of mp3 = (supported mp3 fs ++ rest)%list.
Proof.
  unfold labels_of, supported. generalize (cap_of mp3 fs). intros c.
  destruct mp3; simpl;
    repeat match goal with
           | |- context [(?a <=? ?b)%Z] => destruct (Z.leb_spec a b); simpl
           end; try lia; eexists; reflexivity.
Qed.

Lemma first_normal_label mp3 fs lbl :
  first_normal (gate_menu mp3 fs) = Some lbl -> In lbl (labels_of mp3).
Proof.
  rewrite first_normal_gate. intros H. apply head_supported_in in H.
  destruct (supported_prefix mp3 fs) as [rest ->].
  apply in_or_app. left. exact H.
Qed.

Lemma gate_menu_labels mp3 fs : map fst (gate_menu mp3 fs) = labels_of mp3.
Proof. destruct mp3; reflexivity. Qed.

Lemma ufd_wf (g : GUI) : well_formed g -> well_formed (update_filesize_display g).
Proof.
  intros Hwf. unfold update_filesize_display.
  destruct (PyStr.is_empty _) eqn:He; [revert Hwf; apply wf_frame; reflexivity|].
  destruct (size_cache g !! _); [revert Hwf; apply wf_frame; reflexivity|].
  destruct Hwf as (Hk & Ht & Hc). split; [exact Hk|]. split; [|exact Hc].
  unfold spawn. cbn [threads set_threads set_filesize_label].
  apply Forall_app. split; [exact Ht|]. constructor; [|constructor].
  split; [exact He | apply Hk].
Qed.

Lemma set_quality_var_wf (l : string) (g : GUI) :
  In l (labels_of (is_mp3 g)) -> well_formed g -> well_formed (set_quality_var l g).
Proof.
  intros Hl (Hk & Ht & Hc). split; [|split; [exact Ht | exact Hc]].
  split; [exact Hl | apply Hk].
Qed.

Lemma refresh_body_wf (w : string -> GUI -> GUI) :
  (forall l g, In l (labels_of (is_mp3 g)) -> well_formed g -> well_formed (w l g)) ->
  forall g, well_formed g -> well_formed (refresh_body w g).
Proof.
  intros Hw g Hwf. unfold refresh_body.
  destruct (current_info g) as [info|]; [|exact Hwf].
  destruct (info_is_empty info); [exact Hwf|].
  assert (Hmenu : forall m, (m = [] \/ map fst m = labels_of (is_mp3 g)) ->
                            well_formed (set_quality_menu m g)).
  { intros m Hm. destruct Hwf as (Hk & Ht & Hc).
    split; [|split; [exact Ht | exact Hc]]. split; [apply Hk | exact Hm]. }
  destruct (formats info) as [fs|]; [|apply Hmenu; left; reflexivity].
  apply ufd_wf. cbn [is_mp3 quality_var quality_menu set_quality_menu].
  assert (Hg2 : well_formed (set_quality_menu (gate_menu (is_mp3 g) fs)
                               (set_quality_menu [] g)))
    by (apply (Hmenu (gate_menu (is_mp3 g) fs)); right; apply gate_menu_labels).
  destruct (needs_fallback _ _); [|exact Hg2].
  destruct (first_normal _) as [lbl|] eqn:Hn; [|exact Hg2].
  apply Hw; [|exact Hg2]. apply (first_normal_label _ fs), Hn.
Qed.

Lemma refresh_in_trace_wf (g : GUI) :
  well_formed g -> well_formed (refresh_in_trace g).
Proof. apply refresh_body_wf. intros l g'. apply set_quality_var_wf. Qed.

Lemma quality_var_set_wf (l : string) (g : GUI) :
  In l (labels_of (is_mp3 g)) -> well_formed g -> well_formed (quality_var_set l g).
Proof.
  intros Hl Hwf. apply refresh_in_trace_wf, set_quality_var_wf; assumption.
Qed.

Lemma refresh_wf (g : GUI) : well_formed g -> well_formed (_refresh_quality_menu g).
Proof. apply refresh_body_wf. intros l g'. apply quality_var_set_wf. Qed.

Lemma update_quality_options_wf (mp3 : bool) (g : GUI) :
  well_formed g -> well_formed (update_quality_options (set_is_mp3 mp3 g)).
Proof.
  intros (_ & Ht & Hc). unfold update_quality_options. apply refresh_wf.
  cbn [is_mp3 set_is_mp3]. unfold quality_var_set. apply refresh_in_trace_wf.
  split; [|split; [exact Ht | exact Hc]].
  unfold kind_consistent. cbn. destruct mp3; simpl; tauto.
Qed.

Lemma upd_wf ext t th g : well_formed g -> well_formed (upd ext t th g).
Proof.
  apply wf_frame; [apply upd_is_mp3 | apply upd_quality_var | solve_upd th
                   | apply upd_threads | apply upd_size_cache].
Qed.

Lemma run_callback_wf ext cb g : well_formed g -> well_formed (run_callback ext cb g).
Proof.
  destruct cb; cbn [run_callback];
    try (apply wf_frame; reflexivity);
    auto using upd_wf, refresh_wf, ufd_wf.
Qed.

Lemma wait_link_ops_ok ext url fetched : Forall op_ok (wait_link ext url fetched).
Proof.
  unfold wait_link.
  destruct (PyStr.is_empty url); [repeat constructor|].
  destruct (validators_url ext url); [|repeat constructor].
  destruct (_is_youtube_url ext url); [|repeat constructor].
  destruct fetched; repeat constructor.
Qed.

Lemma thread_ops_ok ext t fetched :
  thread_ok t -> Forall op_ok (thread_ops ext t fetched).
Proof.
  destruct t as [url|url mp3 q|ops]; cbn [thread_ops thread_ok].
  - intros _. apply wait_link_ops_ok.
  - intros Hk. unfold _estimate_and_update_size.
    destruct fetched; [constructor; [exact Hk|]|]; repeat constructor.
  - auto.
Qed.

Lemma run_op_wf (o : Op) (g : GUI) :
  op_ok o -> well_formed g -> well_formed (run_op o g).
Proof.
  intros Ho Hwf. destruct o as [[|ms] cb|info| |key total]; cbn [run_op];
    try (revert Hwf; apply wf_frame; reflexivity).
  - destruct Hwf as (Hk & Ht & _). split; [exact Hk|]. split; [exact Ht|].
    intros key total. cbn. rewrite lookup_empty. discriminate.
  - destruct Hwf as (Hk & Ht & Hc). split; [exact Hk|]. split; [exact Ht|].
    intros key' total'. cbn [size_cache set_size_cache].
    rewrite lookup_insert. destruct (decide (key = key')) as [<-|Hne].
    + intros _. exact Ho.
    + apply Hc.
Qed.

Lemma set_threads_insert_wf (k : nat) (t : Thread) (g : GUI) :
  thread_ok t -> well_formed g ->
  well_formed (set_threads (<[k := t]> (threads g)) g).
Proof.
  intros Ht (Hk & Hts & Hc). split; [exact Hk|]. split; [|exact Hc].
  cbn [threads set_threads]. apply Forall_insert; assumption.
Qed.

Lemma exec_wf (ext : Externals) (e : Event) (g : GUI) :
  well_formed g -> well_formed (exec ext e g).
Proof.
  intros Hwf. destruct e as [text|mp3|label| |k|k fetched|k|d]; cbn [exec].
  - destruct Hwf as (Hk & Ht & Hc). split; [exact Hk|]. split; [|exact Hc].
    unfold spawn. cbn [threads set_threads set_in_link_entry].
    apply Forall_app. split; [exact Ht|]. repeat constructor.
  - apply update_quality_options_wf, Hwf.
  - destruct (entry_enabled label (quality_menu g)) eqn:Hen; [|exact Hwf].
    apply quality_var_set_wf; [|exact Hwf].
    destruct Hwf as ((_ & [Hnil|Hlab]) & _).
    + rewrite Hnil in Hen. discriminate.
    + rewrite <- Hlab. unfold entry_enabled in Hen.
      apply existsb_exists in Hen as ([l st] & Hin & Hl).
      apply andb_prop in Hl as [Hl _]. apply String.eqb_eq in Hl as ->.
      apply (in_map fst) in Hin. exact Hin.
  - destruct (after_queue g) as [|cb q]; [exact Hwf|].
    apply run_callback_wf. revert Hwf. apply wf_frame; reflexivity.
  - destruct (timers g !! k) as [[ms cb]|]; [|exact Hwf].
    apply run_callback_wf. revert Hwf. apply wf_frame; reflexivity.
  - destruct (threads g !! k) as [t|] eqn:Hk; [|exact Hwf].
    assert (Ht : thread_ok t).
    { destruct Hwf as (_ & Hts & _). rewrite Forall_forall in Hts.
      apply Hts. apply list_elem_of_lookup. eauto. }
    destruct t; try exact Hwf;
      apply set_threads_insert_wf; try exact Hwf;
      cbn [thread_ok]; apply thread_ops_ok; exact Ht.
  - destruct (threads g !! k) as [[| |[|o r]]|] eqn:Hk; try exact Hwf.
    assert (Ht : thread_ok (TRunning (o :: r))).
    { destruct Hwf as (_ & Hts & _). rewrite Forall_forall in Hts.
      apply Hts. apply list_elem_of_lookup. eauto. }
    cbn [thread_ok] in Ht. inversion Ht as [|? ? Ho Hr]; subst.
    apply run_op_wf; [exact Ho|]. apply set_threads_insert_wf; assumption.
  - unfold yt_dlp_hook.
    destruct (status d) as [st|]; [|exact Hwf].
    destruct (String.eqb st "downloading");
      [revert Hwf; apply wf_frame; reflexivity|].
    destruct (String.eqb st "finished");
      [revert Hwf; apply wf_frame; reflexivity | exact Hwf].
Qed.

Lemma init_wf : well_formed init.
Proof.
  split; [|split].
  - split; [simpl; tauto | right; reflexivity].
  - constructor.
  - intros key total. cbn. rewrite lookup_empty. discriminate.
Qed.

Lemma run_wf (ext : Externals) (evs : list Event) : forall g,
  well_formed g -> well_formed (run ext evs g).
Proof.
  induction evs as [|e evs IH]; intros g Hwf; [exact Hwf|].
  rewrite run_cons. apply IH, exec_wf, Hwf.
Qed.

Lemma supported_target mp3 fs l :
  In l (supported mp3 fs) ->
  exists t, In (l, t) (opts_of mp3) /\ (t <= cap_of mp3 fs)%Z.
Proof.
  unfold supported. intros H. apply in_map_iff in H as ([l' t] & <- & H).
  apply List.filter_In in H as [Hin Hle]. exists t. split; [exact Hin|].
  simpl in Hle. lia.
Qed.

Lemma height_map_video l t : In (l, t) video_opts -> height_map l = t.
Proof.
  simpl. intros [H|[H|[H|[H|[]]]]]; inversion H; subst; reflexivity.
Qed.

Lemma kbps_map_audio l t : In (l, t) audio_opts -> kbps_map l = pretty t.
Proof.
  simpl. intros [H|[H|[H|[]]]]; inversion H; subst; reflexivity.
Qed.

Lemma label_has_target mp3 l :
  In l (labels_of mp3) -> exists t, In (l, t) (opts_of mp3).
Proof.
  unfold labels_of. intros H. apply in_map_iff in H as ([l' t] & <- & H).
  exists t. exact H.
Qed.

(** X12.  In every state the program can reach from its start, whatever
    the user does and however the threads are scheduled: the selected
    quality is a label of the selected output kind and the menu lists the
    options of that kind or is empty; every size query, waiting or running,
    and every cache key carries a link that is not empty and a quality
    label of its own kind.  So the look-ups [height_map.get(quality, 720)]
    and [kbps_map.get(quality, '192')] of a download, and the former in a
    size query, find the selected quality and never use their default. *)
Theorem reachable_states_well_formed (ext : Externals) (evs : list Event) :
  let g := run ext evs init in
  well_formed g /\
  (is_mp3 g = false -> In (quality_var g, height_map (quality_var g)) video_opts) /\
  (is_mp3 g = true ->
     exists kbps, In (quality_var g, kbps) audio_opts /\
                  kbps_map (quality_var g) = pretty kbps) /\
  (forall url quality, In (TEstimate url false quality) (threads g) ->
     In (quality, estimate_height_map quality) video_opts).
Proof.
  intros g. assert (Hwf : well_formed g) by (apply run_wf, init_wf).
  split; [exact Hwf|]. destruct Hwf as ((Hq & _) & Ht & _).
  split; [|split].
  - intros Hm. rewrite Hm in Hq. destruct (label_has_target false _ Hq) as [t Hin].
    rewrite (height_map_video _ _ Hin). exact Hin.
  - intros Hm. rewrite Hm in Hq. destruct (label_has_target true _ Hq) as [t Hin].
    exists t. split; [exact Hin | apply kbps_map_audio, Hin].
  - intros url quality Hin. rewrite List.Forall_forall in Ht.
    destruct (Ht _ Hin) as [_ Hl].
    destruct (label_has_target false _ Hl) as [t Hin'].
    change (estimate_height_map quality) with (height_map quality).
    rewrite (height_map_video _ _ Hin'). exact Hin'.
Qed.

Lemma reachable_states_well_formed_witness :
  In (quality_var (run ext0 [EvEdit urlA; EvToggle false] init), 1080%Z) video_opts.
Proof.
  destruct (reachable_states_well_formed ext0 [EvEdit urlA; EvToggle false])
    as (_ & H & _).
  apply (H eq_refl).
Defined.

(** ** The download *)

(** X13.  After a refresh with metadata that supports at least one option,
    a download started with the selection it leaves asks for no more than
    the media has: in video mode the height bound in the format specifier
    is the target of the selected entry and at most the largest height of
    the metadata; in audio mode the MP3 bitrate handed to the postprocessor
    is the target of the selected entry and at most the largest audio
    bitrate. *)
Theorem download_quality_within_capability (os : OsPath) (g : GUI) (p : Panel)
    (info : Info) (fs : list Format) :
  current_info g = Some info ->
  formats info = Some fs ->
  supported (is_mp3 g) fs <> [] ->
  let g' := _refresh_quality_menu g in
  (is_mp3 g = false ->
     exists h,
       opt_format (convert_opts os g' p)
         = "bestvideo[height<=" ++ pretty h ++ "]+bestaudio/best" /\
       In (quality_var g', h) video_opts /\ (h <= max_h fs)%Z) /\
  (is_mp3 g = true ->
     exists kbps,
       opt_preferredquality (convert_opts os g' p) = Some (pretty kbps) /\
       In (quality_var g', kbps) audio_opts /\ (kbps <= max_abr fs)%Z).
Proof.
  intros Hi Hf Hne g'. subst g'.
  assert (Hsel : In (quality_var (_refresh_quality_menu g)) (supported (is_mp3 g) fs)).
  { destruct (selection_after_refresh g info fs Hi Hf) as (_ & Hkeep & Hmove).
    destruct (in_dec string_dec (quality_var g) (supported (is_mp3 g) fs)) as [Hin|Hout].
    - rewrite (Hkeep Hin). exact Hin.
    - rewrite (Hmove Hout). destruct (supported (is_mp3 g) fs); [congruence|].
      left. reflexivity. }
  destruct (supported_target _ _ _ Hsel) as (t & Hin & Hle).
  unfold convert_opts. rewrite refresh_is_mp3.
  split; intros Hm; rewrite Hm in *; exists t; cbn [opts_of cap_of] in Hin, Hle.
  - cbn [opt_format]. rewrite (height_map_video _ _ Hin). auto.
  - cbn [opt_preferredquality]. rewrite (kbps_map_audio _ _ Hin). auto.
Qed.

Lemma download_quality_within_capability_witness :
  opt_preferredquality (convert_opts os0 (_refresh_quality_menu g_high200) panel0)
    = Some "96" /\
  (96 <= max_abr fs200)%Z.
Proof.
  assert (Hne : supported (is_mp3 g_high200) fs200 <> []) by (vm_compute; discriminate).
  destruct (download_quality_within_capability os0 g_high200 panel0 info200 fs200
              eq_refl eq_refl Hne) as (_ & H).
  destruct (H eq_refl) as (kbps & _ & _ & _).
  split; [reflexivity | vm_compute; discriminate].
Defined.

(** X14.  The query of a size estimate uses the format specifier the
    download will use, for every kind and quality, as the method's
    documentation says.  Its playlist flag is always set, while the
    download sets it only for a link without "list=": for a link with
    "list=" the estimate is for one video and the download is not limited
    to it. *)
Theorem estimate_uses_download_format (os : OsPath) (g : GUI) (p : Panel) :
  fst (estimate_query (is_mp3 g) (quality_var g)) = opt_format (convert_opts os g p) /\
  snd (estimate_query (is_mp3 g) (quality_var g)) = true /\
  (opt_noplaylist (convert_opts os g p) = false <->
     substring_of "list=" (PyStr.strip (in_link_entry g))).
Proof.
  unfold estimate_query, convert_opts. split; [|split].
  - destruct (is_mp3 g); reflexivity.
  - reflexivity.
  - rewrite <- contains_spec.
    destruct (is_mp3 g); cbn [opt_noplaylist];
      destruct (PyStr.contains "list=" _); simpl; split; congruence.
Qed.

Lemma estimate_uses_download_format_witness :
  opt_noplaylist (convert_opts os0 (set_in_link_entry playlist_url init) panel0)
    = false.
Proof.
  apply (estimate_uses_download_format os0 (set_in_link_entry playlist_url init)
           panel0).
  exists "https://www.youtube.com/watch?v=abc&", "PL1". reflexivity.
Defined.

(** X15.  Whether the download succeeds or raises, [convert_now] ends the
    same way: all eight widgets enabled again, the progress bar stopped,
    'Done!' on the status line, the directory opened and the status reset
    thread started.  The one difference is the error box, shown right after
    the failed download.  The download is asked for once, with the options
    built from the panel as it was. *)
Theorem convert_now_restores_widgets (os : OsPath) (g : GUI) (p : Panel)
    (download_error : option string) :
  fst (convert_now os g p download_error)
    = set_status_text "Done!"
        (set_pb_running false
           (set_widget_states (map (fun _ => normal) (widget_states p)) p)) /\
  snd (convert_now os g p download_error)
    = (FxDownload (PyStr.strip (in_link_entry g)) (convert_opts os g p) ::
       match download_error with
       | Some msg => [FxShowError "Download Error" msg]
       | None => []
       end ++
       [FxOpenBrowser (os_path_realpath os (PyStr.strip (in_directory p)));
        FxStartResetThread])%list.
Proof.
  unfold convert_now, change_widgets. cbn [String.eqb Ascii.eqb Bool.eqb].
  cbn [fst snd app set_status_text set_pb_running set_widget_states
       in_directory filename_entry status_text pb_running widget_states].
  rewrite map_map. split; [reflexivity|].
  destruct download_error; reflexivity.
Qed.

(** X16.  The base name of the output file is never empty: it is the text
    typed into the file name entry, stripped, when that is not blank;
    otherwise the title of the stored metadata when there is one and it is
    not empty; otherwise "download". *)
Theorem base_name_never_empty (g : GUI) (p : Panel) :
  base_name g p <> "" /\
  (PyStr.strip (filename_entry p) <> "" ->
     base_name g p = PyStr.strip (filename_entry p)) /\
  (PyStr.strip (filename_entry p) = "" ->
     title_or_empty (current_info g) <> "" ->
     base_name g p = title_or_empty (current_info g)) /\
  (PyStr.strip (filename_entry p) = "" ->
     title_or_empty (current_info g) = "" ->
     base_name g p = "download").
Proof.
  unfold base_name, title_or_empty.
  destruct (PyStr.strip (filename_entry p)) as [|c s] eqn:Hs; cbn [PyStr.is_empty andb].
  - destruct (current_info g) as [info|]; cbn [PyStr.is_empty].
    + destruct (default "" (title info)) as [|c t]; cbn [PyStr.is_empty];
        repeat split; try congruence; discriminate.
    + repeat split; try congruence; discriminate.
  - repeat split; try congruence; discriminate.
Qed.

Lemma base_name_never_empty_witness :
  base_name refetch_failed panel0 = "A" /\
  base_name init panel0 = "download" /\
  base_name refetch_failed (mkPanel "out" " my song " "Idle" false []) = "my song".
Proof.
  destruct (base_name_never_empty refetch_failed panel0) as (_ & _ & H1 & _).
  destruct (base_name_never_empty init panel0) as (_ & _ & _ & H2).
  destruct (base_name_never_empty refetch_failed
              (mkPanel "out" " my song " "Idle" false [])) as (_ & H3 & _).
  split; [apply H1; [reflexivity | vm_compute; discriminate]|].
  split; [apply H2; reflexivity|].
  etransitivity; [apply H3; vm_compute; discriminate | reflexivity].
Defined.

(** ** Playlists in the earlier versions *)

Lemma substring_of_shorter (a b s : string) :
  substring_of (a ++ b) s -> substring_of a s.
Proof.
  intros (pre & post & ->). exists pre, (b ++ post).
  rewrite str_app_assoc. reflexivity.
Qed.

(** X17.  [check_in_link] of the pytube versions takes a link for a
    playlist exactly when the four letters "list" occur anywhere in it.
    Every link the present version downloads with its playlist, one with
    "list=", was a playlist for them as well. *)
Theorem check_in_link_spec (link : string) :
  (check_in_link link = false <-> substring_of "list" link) /\
  (substring_of "list=" link -> check_in_link link = false).
Proof.
  unfold check_in_link.
  assert (H : PyStr.contains "list" link = true <-> substring_of "list" link)
    by apply contains_spec.
  split.
  - rewrite <- H. destruct (PyStr.contains "list" link); split; congruence.
  - intros Hsub. apply (substring_of_shorter "list" "=") in Hsub.
    apply H in Hsub. rewrite Hsub. reflexivity.
Qed.

Lemma check_in_link_spec_witness : check_in_link playlist_url = false.
Proof.
  apply (check_in_link_spec playlist_url).
  exists "https://www.youtube.com/watch?v=abc&", "PL1". reflexivity.
Defined.

(** ** The single pass of [_strip_ansi] *)

Lemma all_chars_app (p : ascii -> bool) (a b : string) :
  PyStr.all_chars p (a ++ b) = PyStr.all_chars p a && PyStr.all_chars p b.
Proof.
  induction a as [|c a IH]; simpl; [reflexivity|].
  rewrite IH. apply andb_assoc.
Qed.

Lemma all_chars_impl (p q : ascii -> bool) (s : string) :
  (forall c, p c = true -> q c = true) ->
  PyStr.all_chars p s = true -> PyStr.all_chars q s = true.
Proof.
  intros Hpq. induction s as [|c s IH]; simpl; [reflexivity|].
  intros H. apply andb_prop in H as [Hc Hs]. rewrite (Hpq c Hc), (IH Hs). reflexivity.
Qed.

Lemma class_not_esc (c : ascii) :
  is_param c = true \/ is_inter c = true \/ is_final c = true ->
  negb (Ascii.eqb c esc) = true.
Proof.
  destruct (Ascii.eqb_spec c esc) as [->|]; [|reflexivity].
  intros [H|[H|H]]; vm_compute in H; discriminate H.
Qed.

Lemma ansi_seq_body_esc_free (body : string) :
  ansi_seq (String esc body) -> esc_free body = true.
Proof.
  intros H. inversion H as [ps ins f Hps Hins Hf Heq]. subst. unfold esc_free.
  cbn [PyStr.all_chars]. rewrite !all_chars_app. cbn [PyStr.all_chars].
  assert (H1 : PyStr.all_chars (fun c => negb (Ascii.eqb c esc)) ps = true)
    by (apply (all_chars_impl is_param); [intros c Hc; apply class_not_esc; auto | exact Hps]).
  assert (H2 : PyStr.all_chars (fun c => negb (Ascii.eqb c esc)) ins = true)
    by (apply (all_chars_impl is_inter); [intros c Hc; apply class_not_esc; auto | exact Hins]).
  assert (H3 : negb (Ascii.eqb f esc) = true) by (apply class_not_esc; auto).
  rewrite H1, H2, H3. reflexivity.
Qed.

Lemma strip_ansi_keeps (c : ascii) (r : string) :
  match_ansi (String c r) = None ->
  _strip_ansi (String c r) = String c (_strip_ansi r).
Proof. intros H. unfold _strip_ansi. cbn [sub_ansi]. rewrite H. reflexivity. Qed.

Lemma match_ansi_esc_esc (x : string) : match_ansi (String esc (String esc x)) = None.
Proof.
  unfold match_ansi.
  change (Ascii.eqb esc esc && Ascii.eqb esc lbracket) with false. reflexivity.
Qed.

(** X18.  [_strip_ansi] makes one pass and does not look again at what a
    deletion brings together.  For every escape sequence ESC body of the
    pattern, the text ESC ESC body body is turned into ESC body: the result
    is that very escape sequence, and stripping it once more gives the
    empty text. *)
Theorem strip_ansi_single_pass (body : string) :
  ansi_seq (String esc body) ->
  _strip_ansi (String esc (String esc body ++ body)) = String esc body /\
  _strip_ansi (_strip_ansi (String esc (String esc body ++ body))) = "".
Proof.
  intros He.
  assert (Hbody : _strip_ansi body = body)
    by (apply strip_ansi_plain, ansi_seq_body_esc_free, He).
  assert (Honce : _strip_ansi (String esc (String esc body ++ body))
                  = String esc body).
  { change (String esc body ++ body) with (String esc (body ++ body)).
    rewrite (strip_ansi_keeps esc _ (match_ansi_esc_esc _)). f_equal.
    change (String esc (body ++ body)) with (String esc body ++ body).
    rewrite (strip_ansi_seq _ body He). exact Hbody. }
  split; [exact Honce|]. rewrite Honce.
  rewrite <- (str_app_nil_r (String esc body)).
  rewrite (strip_ansi_seq _ "" He). reflexivity.
Qed.

Lemma strip_ansi_single_pass_witness :
  _strip_ansi (String esc (String esc "[0m" ++ "[0m")) = String esc "[0m".
Proof.
  apply (strip_ansi_single_pass "[0m").
  exact (ansi_seq_intro "0" "" "m" eq_refl eq_refl eq_refl).
Defined.
